(** * arbnumbra: test-case generation and verification

    A shallow embedding of [arbnumbra.py]: the literal parser
    ([NumberParser]), the trailing-zero trimmer
    ([NumberGenerator._remove_trailing_zeros]), the case generator
    ([TestCaseGenerator]), the verifier ([TestCaseVerifier]) and the
    special-value catalog ([SpecialCaseGenerator]).

    The program is Python and leans on three pieces of its runtime, each
    modelled below as far as the program uses it:
    - [str] methods ([lower], [split], [rstrip], [endswith]) and [int(str)],
      on ASCII text;
    - the [decimal] module: the [Decimal(str)] constructor, multiplication,
      [Decimal(10) ** Decimal(n)], [format(d, ".<p>f")], and the
      process-wide context reached through [getcontext()], of which the
      program writes the field [prec] only;
    - [print], as a list of the texts written to standard output.

    Python code runs in a world (the decimal context and standard output)
    and either returns or raises; [Py A] is the matching state-and-exception
    monad.  The world is kept when an exception is raised, as it is in the
    process.

    Around these, the random generator ([RandomTestCaseGenerator], its
    draws supplied as data), the reader of case files ([TestCaseReader],
    on the text of the file) and the writer of C tables
    ([TestCaseWriter._format_c_struct] and the [c] format of [write]).

    Left out: [NumberGenerator.generate] and [NumberGenerator._format_number],
    which nothing in the program calls; the JSON, CSV and TOML writers and
    [_print_summary], which are library serialisers; and [main], which is
    argument parsing around the functions above. *)

From Stdlib Require Import ZArith NArith List String Ascii Bool Lia.
From Stdlib Require Import DecimalString.
From Stdlib Require DecimalFacts DecimalPos DecimalN.
Import ListNotations.

Local Open Scope string_scope.
Local Open Scope Z_scope.

(** ** Python outcomes *)

(** The exceptions the modelled code can raise: [ValueError] (from [int],
    from the [prec] setter, from a format specifier), and the [decimal]
    signals that the default context traps. *)
Inductive PyExn : Type :=
| ValueError
| InvalidOperation
| Overflow.

Inductive Outcome (A : Type) : Type :=
| Returned (a : A)
| Raised (e : PyExn).

Arguments Returned {A} a.
Arguments Raised {A} e.

(** ** [str] methods, on ASCII text *)

Module Str.

Definition is_upper (c : ascii) : bool :=
  let n := N_of_ascii c in ((65 <=? n) && (n <=? 90))%N.

Definition is_digit (c : ascii) : bool :=
  let n := N_of_ascii c in ((48 <=? n) && (n <=? 57))%N.

Definition digit_val (c : ascii) : N := (N_of_ascii c - 48)%N.

Definition lower_char (c : ascii) : ascii :=
  if is_upper c then ascii_of_N (N_of_ascii c + 32) else c.

(** [s.lower()] *)
Fixpoint lower (s : string) : string :=
  match s with
  | EmptyString => EmptyString
  | String c r => String (lower_char c) (lower r)
  end.

(** [s.split(sep)] for a one-character separator.  The result is never
    empty ([split_not_nil]), so [parts[0]] always exists. *)
Fixpoint split (sep : ascii) (s : string) : list string :=
  match s with
  | EmptyString => [EmptyString]
  | String c r =>
      if Ascii.eqb c sep then EmptyString :: split sep r
      else match split sep r with
           | [] => [String c EmptyString]
           | h :: t => String c h :: t
           end
  end.

(** [s.rstrip(chars)], the characters to strip given as a predicate. *)
Fixpoint rstrip_by (f : ascii -> bool) (s : string) : string :=
  match s with
  | EmptyString => EmptyString
  | String c r =>
      match rstrip_by f r with
      | EmptyString => if f c then EmptyString else String c EmptyString
      | r' => String c r'
      end
  end.

(** [s.lstrip(chars)] *)
Fixpoint lstrip_by (f : ascii -> bool) (s : string) : string :=
  match s with
  | EmptyString => EmptyString
  | String c r => if f c then lstrip_by f r else s
  end.

Definition strip_by (f : ascii -> bool) (s : string) : string :=
  lstrip_by f (rstrip_by f s).

(** [s.rstrip(ch)] for one character. *)
Definition rstrip (ch : ascii) (s : string) : string :=
  rstrip_by (Ascii.eqb ch) s.

(** [s.endswith(suffix)] *)
Fixpoint endswith (s suffix : string) : bool :=
  String.eqb s suffix ||
  match s with
  | EmptyString => false
  | String _ r => endswith r suffix
  end.

(** [s.replace(ch, "")] for one character. *)
Fixpoint remove (ch : ascii) (s : string) : string :=
  match s with
  | EmptyString => EmptyString
  | String c r => if Ascii.eqb c ch then remove ch r else String c (remove ch r)
  end.

(** [ch in s] *)
Fixpoint contains (ch : ascii) (s : string) : bool :=
  match s with
  | EmptyString => false
  | String c r => Ascii.eqb c ch || contains ch r
  end.

(** [ch * n] *)
Fixpoint repeat (ch : ascii) (n : nat) : string :=
  match n with
  | O => EmptyString
  | S k => String ch (repeat ch k)
  end.

(** [s[:n]] and [s[n:]] for [0 <= n]. *)
Fixpoint take (n : nat) (s : string) : string :=
  match n, s with
  | S k, String c r => String c (take k r)
  | _, _ => EmptyString
  end.

Fixpoint drop (n : nat) (s : string) : string :=
  match n, s with
  | S k, String _ r => drop k r
  | _, _ => s
  end.

(** [str(n)] for a non-negative integer. *)
Definition of_N (n : N) : string := NilZero.string_of_uint (N.to_uint n).

(** [str(z)] for an integer. *)
Definition of_Z (z : Z) : string :=
  if z <? 0 then String "-" (of_N (Z.abs_N z)) else of_N (Z.abs_N z).

(** The white space of [str.strip()] and [str.split()], in ASCII. *)
Definition is_space (c : ascii) : bool :=
  let n := N_of_ascii c in
  (((9 <=? n) && (n <=? 13)) || ((28 <=? n) && (n <=? 32)))%N.

(** [s.strip()] *)
Definition strip (s : string) : string := strip_by is_space s.

(** [s.split()]: the maximal runs of characters that are not white
    space. *)
Fixpoint split_whitespace (s : string) : list string :=
  match s with
  | EmptyString => []
  | String c r =>
      if is_space c then split_whitespace r
      else
        match r with
        | EmptyString => [String c EmptyString]
        | String c' _ =>
            if is_space c' then String c EmptyString :: split_whitespace r
            else match split_whitespace r with
                 | [] => [String c EmptyString]
                 | h :: t => String c h :: t
                 end
        end
  end.

(** The line boundaries of [str.splitlines()], in ASCII: line feed,
    vertical tab, form feed, carriage return, and the file, group and
    record separators. *)
Definition is_linebreak (c : ascii) : bool :=
  let n := N_of_ascii c in
  (((10 <=? n) && (n <=? 13)) || ((28 <=? n) && (n <=? 30)))%N.

(** [s.splitlines()]: a carriage return followed by a line feed is one
    boundary; no empty line is added after a final boundary. *)
Fixpoint splitlines (s : string) : list string :=
  match s with
  | EmptyString => []
  | String c r =>
      if is_linebreak c then
        match r with
        | String c' r' =>
            if Ascii.eqb c (ascii_of_N 13) && Ascii.eqb c' (ascii_of_N 10)
            then EmptyString :: splitlines r'
            else EmptyString :: splitlines r
        | EmptyString => EmptyString :: splitlines r
        end
      else
        match splitlines r with
        | [] => [String c EmptyString]
        | h :: t => String c h :: t
        end
  end.

End Str.

(** ** [int(str)] *)

Module PyInt.

(** The white space [int] skips at both ends of ASCII text. *)
Definition is_space (c : ascii) : bool :=
  let n := N_of_ascii c in (((9 <=? n) && (n <=? 13)) || (n =? 32))%N.

(** Decimal digits, single underscores allowed between two digits. *)
Fixpoint digits (acc : N) (after_digit : bool) (s : string) : option N :=
  match s with
  | EmptyString => if after_digit then Some acc else None
  | String c r =>
      if Str.is_digit c then digits (acc * 10 + Str.digit_val c)%N true r
      else if Ascii.eqb c "_" then
             if after_digit then digits acc false r else None
           else None
  end.

Definition signed (s : string) : bool * string :=
  match s with
  | String c r =>
      if Ascii.eqb c "-" then (true, r)
      else if Ascii.eqb c "+" then (false, r)
      else (false, s)
  | EmptyString => (false, s)
  end.

(** [int(s)]: [ValueError] unless [s] is an optionally signed run of
    digits, white space allowed around it.  (The limit CPython 3.11 puts
    on the number of digits, 4300 by default, is not modelled.) *)
Definition of_str (s : string) : Outcome Z :=
  let '(neg, body) := signed (Str.strip_by is_space s) in
  match digits 0 false body with
  | Some n => Returned (if neg then - Z.of_N n else Z.of_N n)
  | None => Raised ValueError
  end.

End PyInt.

(** ** The [decimal] module

    A finite [Decimal] is a sign, a coefficient and an exponent:
    [(-1)^sign * coeff * 10^exp].  The default context rounds half to
    even, has [Emax = 999999] and [Emin = -999999], and traps
    [InvalidOperation] and [Overflow] (a trapped signal raises); the
    program changes [prec] only, so [prec] is the one field kept here. *)

Module PyDecimal.

Record Decimal : Type := mkDecimal { sign : bool; coeff : N; exp : Z }.

Record Context : Type := mkContext { prec : Z }.

Definition Emax : Z := 999999.
Definition Emin : Z := -999999.

(** The largest [prec] the setter accepts (64-bit builds). *)
Definition MAX_PREC : Z := 999999999999999999.

(** The context a fresh process starts with. *)
Definition DefaultContext : Context := mkContext 28.

Definition Etiny (ctx : Context) : Z := Emin - prec ctx + 1.
Definition Etop (ctx : Context) : Z := Emax - prec ctx + 1.

(** Number of decimal digits of a coefficient, [len(str(c))]. *)
Definition ndigits (c : N) : Z := Z.of_nat (String.length (Str.of_N c)).

(** [c / 10^k] rounded to the nearest integer, ties to the even one. *)
Definition round_half_even (c k : N) : N :=
  if (k =? 0)%N then c
  else
    let q := (c / 10 ^ k)%N in
    let r := (c mod 10 ^ k)%N in
    let half := (5 * 10 ^ (k - 1))%N in
    if ((half <? r) || ((r =? half) && N.odd q))%N then (q + 1)%N else q.

(** Rounding of an exact result to the context ([Decimal._fix]): at most
    [prec] digits, exponent no lower than [Etiny]; [Overflow] when the
    adjusted exponent would pass [Emax]. *)
Definition _fix (ctx : Context) (d : Decimal) : Outcome Decimal :=
  if (coeff d =? 0)%N then
    Returned (mkDecimal (sign d) 0 (Z.min (Z.max (exp d) (Etiny ctx)) Emax))
  else
    let exp_min := ndigits (coeff d) + exp d - prec ctx in
    if Etop ctx <? exp_min then Raised Overflow
    else
      let exp_min := Z.max exp_min (Etiny ctx) in
      if exp d <? exp_min then
        let c := round_half_even (coeff d) (Z.to_N (exp_min - exp d)) in
        let '(c, exp_min) :=
          if prec ctx <? ndigits c then ((c / 10)%N, exp_min + 1)
          else (c, exp_min) in
        if Etop ctx <? exp_min then Raised Overflow
        else Returned (mkDecimal (sign d) c exp_min)
      else Returned d.

(** The white space the constructor strips at both ends of ASCII text. *)
Definition is_space (c : ascii) : bool :=
  let n := N_of_ascii c in
  (((9 <=? n) && (n <=? 13)) || ((28 <=? n) && (n <=? 32)))%N.

(** The leading digits of [s]: their value on top of [acc], how many
    there are on top of [n], and the rest of [s]. *)
Fixpoint span_digits (acc : N) (n : nat) (s : string) : N * nat * string :=
  match s with
  | String c r =>
      if Str.is_digit c
      then span_digits (acc * 10 + Str.digit_val c)%N (S n) r
      else (acc, n, s)
  | EmptyString => (acc, n, s)
  end.

(** [Decimal(s)].  The constructor strips white space, drops every
    underscore, and accepts a number (an optional sign, digits, an
    optional point and more digits, an optional exponent part; at least
    one digit), an infinity or a NaN; anything else signals
    [InvalidOperation].  The value is exact whatever the context.

    This model keeps the number without exponent part.  The program calls
    the constructor in one place, on [integer_part + "." + fractional_part]
    where both parts come from lowercased text split at every ['e']: the
    argument always holds a ['.'], which the infinity and NaN forms have
    not, and never an ['e'] or ['E'] (lemmas [mantissa_has_dot] and
    [mantissa_has_no_e] below). *)
Definition of_str (s : string) : Outcome Decimal :=
  let t := Str.remove "_" (Str.strip_by is_space s) in
  let '(neg, body) := PyInt.signed t in
  let '(ip, ni, rest) := span_digits 0 0 body in
  match rest with
  | EmptyString =>
      if (0 <? ni)%nat then Returned (mkDecimal neg ip 0)
      else Raised InvalidOperation
  | String c r =>
      if Ascii.eqb c "." then
        let '(co, nf, rest') := span_digits ip 0 r in
        match rest' with
        | EmptyString =>
            if (0 <? ni + nf)%nat
            then Returned (mkDecimal neg co (- Z.of_nat nf))
            else Raised InvalidOperation
        | String _ _ => Raised InvalidOperation
        end
      else Raised InvalidOperation
  end.

(** [Decimal(10) ** Decimal(n)] for an [int] [n]: the power of ten, its
    coefficient padded with zeros up to [prec] digits when [n >= 0];
    [Overflow] above [Emax], zero below [Etiny]. *)
Definition pow10 (ctx : Context) (n : Z) : Outcome Decimal :=
  if Emax <? n then Raised Overflow
  else if 0 <=? n then
    let k := Z.min n (prec ctx - 1) in
    Returned (mkDecimal false (10 ^ Z.to_N k)%N (n - k))
  else if Etiny ctx <=? n then Returned (mkDecimal false 1 n)
  else Returned (mkDecimal false 0 (Etiny ctx)).

(** [a * b]: the exact product, rounded to the context. *)
Definition mul (ctx : Context) (a b : Decimal) : Outcome Decimal :=
  _fix ctx (mkDecimal (xorb (sign a) (sign b))
                      (coeff a * coeff b)%N
                      (exp a + exp b)).

(** [Decimal._rescale(e, ROUND_HALF_EVEN)]: the same value with exponent
    [e], rounded when digits are lost.  It does not look at [prec]. *)
Definition rescale (d : Decimal) (e : Z) : Decimal :=
  if e <=? exp d
  then mkDecimal (sign d) (coeff d * 10 ^ Z.to_N (exp d - e))%N e
  else mkDecimal (sign d) (round_half_even (coeff d) (Z.to_N (e - exp d))) e.

(** [format(d, ".<p>f")] for [0 <= p]: rescale to [p] fractional digits,
    then place the point.  No point is written when [p = 0]. *)
Definition format_f (d : Decimal) (p : Z) : string :=
  let digits := Str.of_N (coeff (rescale d (- p))) in
  let len := String.length digits in
  let w := Z.to_nat p in
  let '(intpart, fracpart) :=
    if (len <? w)%nat then ("0", Str.repeat "0" (w - len) ++ digits)
    else
      let i := Str.take (len - w) digits in
      (if String.eqb i "" then "0" else i, Str.drop (len - w) digits) in
  (if sign d then "-" else "")
  ++ intpart
  ++ (if String.eqb fracpart "" then "" else "." ++ fracpart).

End PyDecimal.

(** ** The world a Python call runs in *)

(** [getcontext w] is the process-wide decimal context; [stdout w] the
    texts written by [print], oldest first. *)
Record World : Type := mkWorld {
  getcontext : PyDecimal.Context;
  stdout : list string
}.

(** A fresh process. *)
Definition initial_world : World := mkWorld PyDecimal.DefaultContext [].

Definition Py (A : Type) : Type := World -> Outcome A * World.

Definition ret {A : Type} (a : A) : Py A := fun w => (Returned a, w).

Definition raise {A : Type} (e : PyExn) : Py A := fun w => (Raised e, w).

Definition bind {A B : Type} (m : Py A) (k : A -> Py B) : Py B :=
  fun w =>
    match m w with
    | (Returned a, w') => k a w'
    | (Raised e, w') => (Raised e, w')
    end.

Declare Scope py_scope.
Delimit Scope py_scope with py.
Bind Scope py_scope with Py.

Notation "x <- m ;; k" := (bind m (fun x => k))
  (at level 61, m at next level, right associativity) : py_scope.
Notation "' pat <- m ;; k" := (bind m (fun x => match x with pat => k end))
  (at level 61, pat pattern, m at next level, right associativity) : py_scope.
Notation "m ;; k" := (bind m (fun _ => k))
  (at level 61, right associativity) : py_scope.

Local Open Scope py_scope.

(** A call that cannot touch the world. *)
Definition lift {A : Type} (o : Outcome A) : Py A := fun w => (o, w).

(** A [decimal] operation: it reads the current context. *)
Definition in_context {A : Type} (f : PyDecimal.Context -> Outcome A) : Py A :=
  fun w => (f (getcontext w), w).

(** [getcontext().prec = v]: [ValueError] outside [[1, MAX_PREC]]. *)
Definition set_prec (v : Z) : Py unit :=
  fun w =>
    if (1 <=? v) && (v <=? PyDecimal.MAX_PREC)
    then (Returned tt, mkWorld (PyDecimal.mkContext v) (stdout w))
    else (Raised ValueError, w).

(** [f"{number:.{precision}f}"]: a negative precision gives the
    specifier [".-1f"], which [format] refuses with [ValueError]. *)
Definition fstring_f (number : PyDecimal.Decimal) (precision : Z) : Py string :=
  if precision <? 0 then raise ValueError
  else ret (PyDecimal.format_f number precision).

(** [print(text, end=end_)] *)
Definition print (text end_ : string) : Py unit :=
  fun w => (Returned tt, mkWorld (getcontext w) (stdout w ++ [text ++ end_])).

(** A list comprehension [[f(x) for x in l]]. *)
Fixpoint comprehension {A B : Type} (f : A -> Py B) (l : list A) : Py (list B) :=
  match l with
  | [] => ret []
  | x :: rest =>
      y <- f x ;;
      ys <- comprehension f rest ;;
      ret (y :: ys)
  end.

(** A list comprehension with a condition,
    [[f(x) for x in l if cond(x)]]: the condition and the body run for
    one element before the next element is looked at. *)
Fixpoint comprehension_if {A B : Type} (f : A -> Py B) (cond : A -> Py bool)
    (l : list A) : Py (list B) :=
  match l with
  | [] => ret []
  | x :: rest =>
      keep <- cond x ;;
      if keep then
        y <- f x ;;
        ys <- comprehension_if f cond rest ;;
        ret (y :: ys)
      else comprehension_if f cond rest
  end.

(** [range(a, b)] *)
Definition range (a b : Z) : list Z :=
  map (fun i => a + Z.of_nat i) (seq 0 (Z.to_nat (b - a))).

(** ** The program *)

Record TestCase : Type := mkTestCase {
  num_str : string;
  precision : Z;
  expected : string;
  radix : option Z;
  base : option Z
}.

Module NumberParser.

Definition _split_mantissa (mantissa : string) (exponent : Z)
  : string * string * Z :=
  let parts := Str.split "." mantissa in
  let integer_part := nth 0 parts "" in
  let fractional_part := if (1 <? List.length parts)%nat then nth 1 parts "" else "" in
  (integer_part, fractional_part, exponent).

Definition _split_exponent (num_str : string) : Outcome (string * string * Z) :=
  let parts := Str.split "e" (Str.lower num_str) in
  match (if (1 <? List.length parts)%nat then PyInt.of_str (nth 1 parts "")
         else Returned 0) with
  | Returned exponent => Returned (_split_mantissa (nth 0 parts "") exponent)
  | Raised e => Raised e
  end.

Definition parse (num_str : string) : Outcome (string * string * Z) :=
  _split_exponent num_str.

End NumberParser.

Module NumberGenerator.

Definition _remove_trailing_zeros (number_str : string) : string :=
  let result := Str.rstrip "0" number_str in
  if negb (Str.endswith result ".") then result else result ++ "0".

End NumberGenerator.

Module TestCaseGenerator.

Definition _calculate_number (integer_part fractional_part : string)
    (exponent : Z) : Py PyDecimal.Decimal :=
  let mantissa := integer_part ++ "." ++ fractional_part in
  m <- lift (PyDecimal.of_str mantissa) ;;
  ten_to_exponent <- in_context (fun ctx => PyDecimal.pow10 ctx exponent) ;;
  in_context (fun ctx => PyDecimal.mul ctx m ten_to_exponent).

Definition _format_number (number : PyDecimal.Decimal)
    (precision exponent : Z) : Py string :=
  set_prec (precision + Z.max exponent 0 + 1) ;;
  formatted_number <- fstring_f number precision ;;
  ret (NumberGenerator._remove_trailing_zeros formatted_number).

Definition generate (num_str : string) (precision : Z)
    (radix base : option Z) (verbose : bool) : Py TestCase :=
  '(integer_part, fractional_part, exponent) <- lift (NumberParser.parse num_str) ;;
  number <- _calculate_number integer_part fractional_part exponent ;;
  formatted_number <- _format_number number precision exponent ;;
  ret (mkTestCase num_str precision formatted_number radix base).

End TestCaseGenerator.

Module TestCaseVerifier.

Definition newline : string := String (ascii_of_N 10) EmptyString.

(** The body of the loop, for one record.  (The two strings are bound
    in the other order than in the source, [expected] last, because that
    name hides the field accessor.) *)
Definition verify_one (tc : TestCase) (verbose : bool) : Py unit :=
  r <- TestCaseGenerator.generate (num_str tc) (precision tc) (radix tc)
         (base tc) verbose ;;
  let actual := expected r in
  let expected := expected tc in
  if String.eqb expected actual
  then print (if verbose then "PASS: " ++ num_str tc else "") ""
  else print ("FAIL: " ++ num_str tc ++ newline
              ++ "Expected: " ++ expected ++ newline
              ++ "Actual: " ++ actual) newline.

Fixpoint verify (test_cases : list TestCase) (verbose : bool) : Py unit :=
  match test_cases with
  | [] => ret tt
  | tc :: rest => verify_one tc verbose ;; verify rest verbose
  end.

End TestCaseVerifier.

Module SpecialCaseGenerator.

Definition generate_special_cases (verbose : bool) : Py (list TestCase) :=
  comprehension
    (fun case => TestCaseGenerator.generate case 0 None None verbose)
    ["CUSTOM_INFINITY"; "-CUSTOM_INFINITY"; "CUSTOM_NAN"].

Definition generate_edge_cases (verbose : bool) : Py (list TestCase) :=
  comprehension
    (fun case => TestCaseGenerator.generate case 308 None None verbose)
    ["1.7976931348623157e308"; "-1.7976931348623157e308"].

Definition generate_subnormal_cases (verbose : bool) : Py (list TestCase) :=
  comprehension
    (fun case => TestCaseGenerator.generate case 324 None None verbose)
    ["4.9406564584124654e-324"].

Definition pi : string :=
  "3.14159265358979323846264338327950288419716939937510".

Definition generate_pi_approximations (count : Z) (verbose : bool)
  : Py (list TestCase) :=
  comprehension
    (fun i => TestCaseGenerator.generate pi i None None verbose)
    (range 1 (count + 1)).

End SpecialCaseGenerator.

Module RandomTestCaseGenerator.

(** What the random source returns during one call: the two [randint]
    results and the 53 random bits [k] behind [random.random()], whose
    value is the float [k / 2^53]. *)
Record Draws : Type := mkDraws {
  drawn_precision : Z;
  drawn_exponent : Z;
  drawn_bits : N
}.

(** [random.randint(a, b)]: [ValueError] on an empty range. *)
Definition randint (a b drawn : Z) : Py Z :=
  if b <? a then raise ValueError else ret drawn.

(** The float [k / 2^53] as the decimal it is exactly equal to,
    [k * 5^53 / 10^53].  Formatting a float with [".<p>f"] rounds its
    exact value half to even, as formatting that decimal does. *)
Definition random_float (k : N) : PyDecimal.Decimal :=
  PyDecimal.mkDecimal false (k * 5 ^ 53)%N (-53).

Definition generate (min_precision max_precision min_exponent max_exponent : Z)
    (radix base : option Z) (verbose : bool) (draws : Draws) : Py TestCase :=
  precision <- randint min_precision max_precision (drawn_precision draws) ;;
  exponent <- randint min_exponent max_exponent (drawn_exponent draws) ;;
  mantissa <- fstring_f (random_float (drawn_bits draws)) precision ;;
  let num_str := mantissa ++ "e" ++ Str.of_Z exponent in
  TestCaseGenerator.generate num_str precision radix base verbose.

End RandomTestCaseGenerator.

Module TestCaseReader.

Definition _is_valid_line (line : string) (verbose : bool) : Py bool :=
  let parts := Str.split_whitespace (Str.strip line) in
  if (List.length parts <? 2)%nat then
    print (if verbose then "Skipping invalid line: " ++ line else "")
          TestCaseVerifier.newline ;;
    ret false
  else ret true.

(** [num_str, precision = parts[:2]] raises [ValueError] when there are
    fewer than two parts.  The arguments of the call are evaluated in
    order, [int(precision)] last. *)
Definition _parse_line (line : string) (verbose : bool) : Py TestCase :=
  let parts := Str.split_whitespace (Str.strip line) in
  match firstn 2 parts with
  | [num_str; precision] =>
      radix <- (if (2 <? List.length parts)%nat
                then r <- lift (PyInt.of_str (nth 2 parts "")) ;; ret (Some r)
                else ret None) ;;
      base <- (if (3 <? List.length parts)%nat
               then b <- lift (PyInt.of_str (nth 3 parts "")) ;; ret (Some b)
               else ret None) ;;
      precision <- lift (PyInt.of_str precision) ;;
      TestCaseGenerator.generate num_str precision radix base verbose
  | _ => raise ValueError
  end.

(** [read_from_file], given the text that [filename.read_text()]
    returns. *)
Definition read_from_file (filename text : string) (verbose : bool)
  : Py (list TestCase) :=
  print (if verbose
         then TestCaseVerifier.newline ++ "Reading test cases from file: " ++ filename
         else "") TestCaseVerifier.newline ;;
  comprehension_if (fun line => _parse_line line verbose)
                   (fun line => _is_valid_line line verbose)
                   (Str.splitlines text).

End TestCaseReader.

Module TestCaseWriter.

(** The values a record's dictionary holds. *)
Inductive PyValue : Type :=
| VStr (s : string)
| VInt (z : Z).

(** A dictionary with string keys, in insertion order. *)
Definition Dict : Type := list (string * PyValue).

(** [d[key]]; [None] stands for [KeyError]. *)
Fixpoint getitem (d : Dict) (key : string) : option PyValue :=
  match d with
  | [] => None
  | (k, v) :: rest => if String.eqb k key then Some v else getitem rest key
  end.

(** [str(v)], which is what an f-string field writes. *)
Definition str (v : PyValue) : string :=
  match v with
  | VStr s => s
  | VInt z => Str.of_Z z
  end.

(** [asdict(tc, dict_factory=...)] with the factory of [write]: the
    fields in declaration order, those that are [None] left out. *)
Definition asdict (tc : TestCase) : Dict :=
  ([("num_str", VStr (num_str tc));
    ("precision", VInt (precision tc));
    ("expected", VStr (expected tc))]
   ++ match radix tc with Some r => [("radix", VInt r)] | None => [] end
   ++ match base tc with Some b => [("base", VInt b)] | None => [] end)%list.

Definition quote : string := String (ascii_of_N 34) EmptyString.

(** The tests ["radix" in tc] and ["base" in tc] are the two inner
    matches: a key is in the dictionary when [getitem] finds it. *)
Definition _format_c_struct (tc : Dict) : option string :=
  match getitem tc "num_str", getitem tc "precision", getitem tc "expected" with
  | Some n, Some p, Some e =>
      let base_struct :=
        "    {" ++ quote ++ str n ++ quote ++ ", " ++ str p ++ ", "
        ++ quote ++ str e ++ quote in
      let base_struct :=
        match getitem tc "radix" with
        | Some r =>
            let base_struct := base_struct ++ ", " ++ str r in
            match getitem tc "base" with
            | Some b => base_struct ++ ", " ++ str b
            | None => base_struct
            end
        | None => base_struct
        end in
      Some (base_struct ++ "}," ++ TestCaseVerifier.newline)
  | _, _, _ => None
  end.

(** [''.join(_format_c_struct(tc) for tc in data)] *)
Fixpoint join_c_structs (data : list Dict) : option string :=
  match data with
  | [] => Some ""
  | tc :: rest =>
      match _format_c_struct tc, join_c_structs rest with
      | Some row, Some rows => Some (row ++ rows)
      | _, _ => None
      end
  end.

(** The text the ['c'] entry of [writers] writes to the file. *)
Definition writers_c (data : list Dict) : option string :=
  match join_c_structs data with
  | Some rows =>
      Some ("struct TestCase test_cases[] = {" ++ TestCaseVerifier.newline
            ++ rows ++ "};" ++ TestCaseVerifier.newline)
  | None => None
  end.

(** The content of the file that [write] leaves for the format ['c']. *)
Definition write_c (test_cases : list TestCase) : option string :=
  writers_c (map asdict test_cases).

End TestCaseWriter.

(** ** Reference definitions, worded as the specification words them

    They are compared with the program in the theorems; the program
    itself does not use them. *)

Module Spec.

(** The case generator with the working precision set before the
    multiply-by-power-of-ten step. *)
Definition generate_prec_first (num_str : string) (precision : Z)
    (radix base : option Z) (verbose : bool) : Py TestCase :=
  '(integer_part, fractional_part, exponent) <- lift (NumberParser.parse num_str) ;;
  set_prec (precision + Z.max exponent 0 + 1) ;;
  number <- TestCaseGenerator._calculate_number integer_part fractional_part exponent ;;
  formatted_number <- fstring_f number precision ;;
  ret (mkTestCase num_str precision
         (NumberGenerator._remove_trailing_zeros formatted_number) radix base).

(** A decimal string rounded half to even to [p] fractional digits, and
    written as the generator writes an expected string. *)
Definition rounded_to (s : string) (p : Z) : Outcome string :=
  match PyDecimal.of_str s with
  | Returned d =>
      Returned (NumberGenerator._remove_trailing_zeros (PyDecimal.format_f d p))
  | Raised e => Raised e
  end.



(** Text made of decimal digits only. *)
Fixpoint all_digits (s : string) : bool :=
  match s with
  | EmptyString => true
  | String c r => Str.is_digit c && all_digits r
  end.

(** The pi literal of the catalog as the constructor reads it. *)
Definition pi_decimal : PyDecimal.Decimal :=
  PyDecimal.mkDecimal false
    314159265358979323846264338327950288419716939937510 (-50).

(** A non-zero decimal that the context holds without rounding: no more
    digits than [prec], exponent within range. *)
Definition fits (ctx : PyDecimal.Context) (d : PyDecimal.Decimal) : Prop :=
  PyDecimal.coeff d <> 0%N /\
  PyDecimal.ndigits (PyDecimal.coeff d) <= PyDecimal.prec ctx /\
  PyDecimal.ndigits (PyDecimal.coeff d) + PyDecimal.exp d <= PyDecimal.Emax + 1 /\
  PyDecimal.Etiny ctx <= PyDecimal.exp d.

(** A context the [prec] setter can have left. *)
Definition valid_context (ctx : PyDecimal.Context) : Prop :=
  1 <= PyDecimal.prec ctx <= PyDecimal.MAX_PREC.

End Spec.

(** ** Notions the further properties are stated with *)

Module Notions.

(** Text without an exponent marker, and text without a point. *)
Definition no_marker (s : string) : Prop :=
  Str.contains "e" s = false /\ Str.contains "E" s = false.

Definition no_point (s : string) : Prop := Str.contains "." s = false.

(** Text without an upper-case letter. *)
Fixpoint no_upper (s : string) : bool :=
  match s with
  | EmptyString => true
  | String c r => negb (Str.is_upper c) && no_upper r
  end.

(** An unsigned literal: it starts with a digit or with the point. *)
Definition unsigned (s : string) : Prop :=
  match s with
  | String c _ => Str.is_digit c = true \/ c = "."%char
  | EmptyString => False
  end.

(** The same decimal with another sign. *)
Definition with_sign (s : bool) (d : PyDecimal.Decimal) : PyDecimal.Decimal :=
  PyDecimal.mkDecimal s (PyDecimal.coeff d) (PyDecimal.exp d).

(** The literal's exact value: the mantissa with the exponent added to
    its own. *)
Definition scaled (m : PyDecimal.Decimal) (exponent : Z) : PyDecimal.Decimal :=
  PyDecimal.mkDecimal (PyDecimal.sign m) (PyDecimal.coeff m)
                      (PyDecimal.exp m + exponent).

End Notions.

(** * Theorems *)

(** ** Text *)

Lemma append_empty_r : forall s : string, s ++ "" = s.
Proof. induction s as [|c s IH]; simpl; [reflexivity | now rewrite IH]. Qed.

Lemma append_assoc : forall s t u : string, (s ++ t) ++ u = s ++ (t ++ u).
Proof. induction s as [|c s IH]; intros; simpl; [reflexivity | now rewrite IH]. Qed.

(** ** What reaches the decimal constructor *)

Lemma contains_app :
  forall ch s t, Str.contains ch (s ++ t) = Str.contains ch s || Str.contains ch t.
Proof.
  induction s as [|c s IH]; intros t; simpl; [reflexivity|].
  now rewrite IH, orb_assoc.
Qed.

Lemma split_not_nil : forall sep s, Str.split sep s <> [].
Proof.
  intros sep [|c s]; simpl; [discriminate|].
  destruct (Ascii.eqb c sep); [discriminate|].
  destruct (Str.split sep s); discriminate.
Qed.

(** No piece of a split holds the separator. *)
Lemma split_piece_no_sep :
  forall sep s piece, In piece (Str.split sep s) -> Str.contains sep piece = false.
Proof.
  intros sep. induction s as [|c s IH]; intros piece H; simpl in H.
  - destruct H as [<-|[]]. reflexivity.
  - destruct (Ascii.eqb c sep) eqn:Ec.
    + destruct H as [<-|H]; [reflexivity | now apply IH].
    + destruct (Str.split sep s) as [|h t] eqn:Es.
      * destruct H as [<-|[]]. simpl. now rewrite Ec.
      * destruct H as [<-|H].
        -- simpl. rewrite Ec. apply IH. now left.
        -- apply IH. now right.
Qed.

(** Every character of a piece comes from the text that was split. *)
Lemma split_piece_chars :
  forall sep ch s piece,
    In piece (Str.split sep s) ->
    Str.contains ch piece = true -> Str.contains ch s = true.
Proof.
  intros sep ch. induction s as [|c s IH]; intros piece H Hch; simpl in H.
  - destruct H as [<-|[]]. discriminate.
  - simpl. destruct (Ascii.eqb c sep) eqn:Ec.
    + destruct H as [<-|H]; [discriminate|].
      rewrite (IH piece H Hch). apply orb_true_r.
    + destruct (Str.split sep s) as [|h t] eqn:Es.
      * destruct H as [<-|[]]. simpl in Hch. rewrite orb_false_r in Hch.
        now rewrite Hch.
      * destruct H as [<-|H].
        -- simpl in Hch. apply orb_true_iff in Hch. destruct Hch as [Hc|Hh].
           ++ now rewrite Hc.
           ++ rewrite (IH h (or_introl eq_refl) Hh). apply orb_true_r.
        -- rewrite (IH piece (or_intror H) Hch). apply orb_true_r.
Qed.

Lemma lower_char_not_upper : forall c, Str.is_upper (Str.lower_char c) = false.
Proof.
  intros c. destruct c as [[] [] [] [] [] [] [] []]; vm_compute; reflexivity.
Qed.

Lemma lower_no_upper :
  forall ch s, Str.is_upper ch = true -> Str.contains ch (Str.lower s) = false.
Proof.
  intros ch s Hup. induction s as [|c s IH]; simpl; [reflexivity|].
  rewrite IH, orb_false_r.
  destruct (Ascii.eqb_spec (Str.lower_char c) ch) as [E|_]; [|reflexivity].
  rewrite <- E, lower_char_not_upper in Hup. discriminate.
Qed.

Lemma nth_piece :
  forall (l : list string) n, nth n l "" = "" \/ In (nth n l "") l.
Proof.
  intros l n. destruct (nth_in_or_default n l "") as [H|H]; auto.
Qed.

(** The text [_calculate_number] hands to the constructor always holds
    the point it puts between the two parts. *)
Lemma mantissa_has_dot :
  forall integer_part fractional_part,
    Str.contains "." (integer_part ++ "." ++ fractional_part) = true.
Proof.
  intros ip fp. rewrite contains_app. simpl. apply orb_true_r.
Qed.

(** And never an exponent marker: the parser lowercases the literal and
    keeps what precedes the first ['e']. *)
Lemma mantissa_has_no_e :
  forall num_str integer_part fractional_part exponent,
    NumberParser.parse num_str
      = Returned (integer_part, fractional_part, exponent) ->
    Str.contains "e" (integer_part ++ "." ++ fractional_part) = false /\
    Str.contains "E" (integer_part ++ "." ++ fractional_part) = false.
Proof.
  intros num_str ip fp e.
  unfold NumberParser.parse, NumberParser._split_exponent.
  set (parts := Str.split "e" (Str.lower num_str)).
  destruct (if (1 <? List.length parts)%nat then _ else _); [|discriminate].
  unfold NumberParser._split_mantissa.
  set (m := nth 0 parts "").
  set (mparts := Str.split "." m).
  intros H. injection H as Hip Hfp _.
  assert (Hm : forall ch, Str.contains ch m = true ->
                          Str.contains ch (Str.lower num_str) = true
                          /\ Ascii.eqb ch "e" = false).
  { intros ch Hch. destruct (nth_piece parts 0) as [E|Hin];
      fold m in E || fold m in Hin.
    - rewrite E in Hch. discriminate.
    - split; [now apply (split_piece_chars "e" ch _ m)|].
      destruct (Ascii.eqb_spec ch "e") as [->|]; [|reflexivity].
      rewrite (split_piece_no_sep "e" _ m Hin) in Hch. discriminate. }
  assert (Hpiece : forall piece ch,
             piece = "" \/ In piece mparts ->
             Ascii.eqb ch "e" = true \/ Str.is_upper ch = true ->
             Str.contains ch piece = false).
  { intros piece ch [->|Hin] Hch; [reflexivity|].
    destruct (Str.contains ch piece) eqn:Hc; [|reflexivity].
    apply (split_piece_chars "." ch m piece Hin) in Hc.
    destruct (Hm ch Hc) as [Hlow Hne]. destruct Hch as [He|Hup].
    - congruence.
    - rewrite (lower_no_upper ch num_str Hup) in Hlow. discriminate. }
  assert (Hip' : ip = "" \/ In ip mparts).
  { rewrite <- Hip. apply nth_piece. }
  assert (Hfp' : fp = "" \/ In fp mparts).
  { rewrite <- Hfp. destruct (1 <? List.length mparts)%nat; [|now left].
    apply nth_piece. }
  split; rewrite !contains_app.
  - rewrite (Hpiece ip "e"%char Hip'), (Hpiece fp "e"%char Hfp') by (now left).
    reflexivity.
  - rewrite (Hpiece ip "E"%char Hip'), (Hpiece fp "E"%char Hfp') by (now right).
    reflexivity.
Qed.

(** ** The generator and the world *)

(** [_calculate_number] leaves the world as it finds it, and looks at the
    context only. *)
Lemma _calculate_number_world :
  forall integer_part fractional_part exponent w,
    TestCaseGenerator._calculate_number integer_part fractional_part exponent w
    = (match PyDecimal.of_str (integer_part ++ "." ++ fractional_part) with
       | Returned m =>
           match PyDecimal.pow10 (getcontext w) exponent with
           | Returned t => PyDecimal.mul (getcontext w) m t
           | Raised e => Raised e
           end
       | Raised e => Raised e
       end, w).
Proof.
  intros ip fp e w.
  unfold TestCaseGenerator._calculate_number, bind, lift, in_context.
  destruct (PyDecimal.of_str (ip ++ "." ++ fp)) as [m|x]; [|reflexivity].
  destruct (PyDecimal.pow10 (getcontext w) e) as [t|x]; reflexivity.
Qed.

(** [_format_number] when it returns: the precision was in the setter's
    range, the requested precision was not negative, and the world is
    left with the new working precision. *)
Lemma _format_number_returned :
  forall number precision exponent w s w',
    TestCaseGenerator._format_number number precision exponent w = (Returned s, w') ->
    0 <= precision /\
    1 <= precision + Z.max exponent 0 + 1 <= PyDecimal.MAX_PREC /\
    s = NumberGenerator._remove_trailing_zeros (PyDecimal.format_f number precision) /\
    w' = mkWorld (PyDecimal.mkContext (precision + Z.max exponent 0 + 1)) (stdout w).
Proof.
  intros number p e w s w'.
  unfold TestCaseGenerator._format_number, bind, set_prec, fstring_f, ret, raise.
  destruct ((1 <=? p + Z.max e 0 + 1) && (p + Z.max e 0 + 1 <=? PyDecimal.MAX_PREC))
    eqn:Hrange; [|discriminate].
  destruct (p <? 0) eqn:Hneg; [discriminate|].
  intros H. inversion H; subst. clear H.
  apply andb_true_iff in Hrange. destruct Hrange as [H1 H2].
  apply Z.leb_le in H1, H2. apply Z.ltb_ge in Hneg. auto.
Qed.

(** The converse: in range, [_format_number] returns. *)
Lemma _format_number_returns :
  forall number precision exponent w,
    0 <= precision ->
    precision + Z.max exponent 0 + 1 <= PyDecimal.MAX_PREC ->
    TestCaseGenerator._format_number number precision exponent w
    = (Returned (NumberGenerator._remove_trailing_zeros
                   (PyDecimal.format_f number precision)),
       mkWorld (PyDecimal.mkContext (precision + Z.max exponent 0 + 1)) (stdout w)).
Proof.
  intros number p e w Hp Hmax.
  unfold TestCaseGenerator._format_number, bind, set_prec, fstring_f, ret.
  replace (1 <=? p + Z.max e 0 + 1) with true by (symmetry; apply Z.leb_le; lia).
  replace (p + Z.max e 0 + 1 <=? PyDecimal.MAX_PREC) with true
    by (symmetry; apply Z.leb_le; lia).
  replace (p <? 0) with false by (symmetry; apply Z.ltb_ge; lia).
  reflexivity.
Qed.

(** [generate] written out: what it returns or raises, and the world it
    leaves, at each of its steps. *)
Lemma generate_unfold :
  forall num_str precision radix base verbose w,
    TestCaseGenerator.generate num_str precision radix base verbose w
    = match NumberParser.parse num_str with
      | Raised e => (Raised e, w)
      | Returned (integer_part, fractional_part, exponent) =>
          match fst (TestCaseGenerator._calculate_number
                       integer_part fractional_part exponent w) with
          | Raised e => (Raised e, w)
          | Returned number =>
              let p := precision + Z.max exponent 0 + 1 in
              if (1 <=? p) && (p <=? PyDecimal.MAX_PREC) then
                let w' := mkWorld (PyDecimal.mkContext p) (stdout w) in
                if precision <? 0 then (Raised ValueError, w')
                else (Returned
                        (mkTestCase num_str precision
                           (NumberGenerator._remove_trailing_zeros
                              (PyDecimal.format_f number precision))
                           radix base), w')
              else (Raised ValueError, w)
          end
      end.
Proof.
  intros num_str p radix base verbose w.
  unfold TestCaseGenerator.generate, bind, lift.
  destruct (NumberParser.parse num_str) as [[[ip fp] e]|x]; [|reflexivity].
  rewrite _calculate_number_world. cbn [fst].
  destruct (match PyDecimal.of_str (ip ++ "." ++ fp) with
            | Returned m => _ | Raised e0 => _ end) as [number|x];
    [|reflexivity].
  unfold TestCaseGenerator._format_number, bind, set_prec, fstring_f, ret, raise.
  cbv zeta.
  destruct ((1 <=? p + Z.max e 0 + 1) && (p + Z.max e 0 + 1 <=? PyDecimal.MAX_PREC));
    [|reflexivity].
  destruct (p <? 0); reflexivity.
Qed.

(** [generate], step by step, when it returns. *)
Lemma generate_returned :
  forall num_str precision radix base verbose w tc w',
    TestCaseGenerator.generate num_str precision radix base verbose w
      = (Returned tc, w') ->
    exists integer_part fractional_part exponent number,
      NumberParser.parse num_str
        = Returned (integer_part, fractional_part, exponent) /\
      TestCaseGenerator._calculate_number integer_part fractional_part exponent w
        = (Returned number, w) /\
      0 <= precision /\
      tc = mkTestCase num_str precision
             (NumberGenerator._remove_trailing_zeros
                (PyDecimal.format_f number precision)) radix base /\
      w' = mkWorld (PyDecimal.mkContext (precision + Z.max exponent 0 + 1))
                   (stdout w).
Proof.
  intros num_str p radix base verbose w tc w'.
  rewrite generate_unfold.
  destruct (NumberParser.parse num_str) as [[[ip fp] e]|x]; [|discriminate].
  destruct (fst (TestCaseGenerator._calculate_number ip fp e w))
    as [number|x] eqn:Hcalc; [|discriminate].
  cbv zeta.
  destruct ((1 <=? p + Z.max e 0 + 1) && (p + Z.max e 0 + 1 <=? PyDecimal.MAX_PREC));
    [|discriminate].
  destruct (p <? 0) eqn:Hneg; [discriminate|].
  intros H. inversion H; subst. clear H.
  apply Z.ltb_ge in Hneg.
  exists ip, fp, e, number. repeat split; auto.
  rewrite _calculate_number_world in *. cbn [fst] in Hcalc.
  rewrite Hcalc. reflexivity.
Qed.


(** C10: when [generate] returns, the process-wide working precision is
    [precision + max(exponent, 0) + 1], with the exponent parsed from
    [num_str]; nothing else of the world has changed; and the multiply
    step of whatever [generate] call comes next runs at that precision. *)
Theorem generate_leaves_working_precision :
  forall num_str precision radix base verbose w tc w',
    TestCaseGenerator.generate num_str precision radix base verbose w
      = (Returned tc, w') ->
    exists integer_part fractional_part exponent,
      NumberParser.parse num_str
        = Returned (integer_part, fractional_part, exponent) /\
      PyDecimal.prec (getcontext w') = precision + Z.max exponent 0 + 1 /\
      stdout w' = stdout w /\
      forall integer_part' fractional_part' exponent',
        fst (TestCaseGenerator._calculate_number
               integer_part' fractional_part' exponent' w')
        = match PyDecimal.of_str (integer_part' ++ "." ++ fractional_part') with
          | Returned m =>
              let ctx := PyDecimal.mkContext (precision + Z.max exponent 0 + 1) in
              match PyDecimal.pow10 ctx exponent' with
              | Returned t => PyDecimal.mul ctx m t
              | Raised e => Raised e
              end
          | Raised e => Raised e
          end.
Proof.
  intros num_str p radix base verbose w tc w' H.
  apply generate_returned in H.
  destruct H as (ip & fp & e & number & Hparse & _ & _ & _ & Hw).
  exists ip, fp, e. subst w'. repeat split; auto.
  intros ip' fp' e'. rewrite _calculate_number_world. reflexivity.
Qed.

(** In a fresh process [generate("1.23e10", 15)] returns and leaves the
    working precision at 15 + 10 + 1. *)
Lemma generate_leaves_working_precision_witness :
  exists integer_part fractional_part exponent,
    NumberParser.parse "1.23e10"
      = Returned (integer_part, fractional_part, exponent) /\
    PyDecimal.prec
      (getcontext
         (mkWorld (PyDecimal.mkContext 26) [])) = 15 + Z.max exponent 0 + 1 /\
    stdout (mkWorld (PyDecimal.mkContext 26) []) = stdout initial_world /\
    forall integer_part' fractional_part' exponent',
      fst (TestCaseGenerator._calculate_number
             integer_part' fractional_part' exponent'
             (mkWorld (PyDecimal.mkContext 26) []))
      = match PyDecimal.of_str (integer_part' ++ "." ++ fractional_part') with
        | Returned m =>
            let ctx := PyDecimal.mkContext (15 + Z.max exponent 0 + 1) in
            match PyDecimal.pow10 ctx exponent' with
            | Returned t => PyDecimal.mul ctx m t
            | Raised e => Raised e
            end
        | Raised e => Raised e
        end.
Proof.
  apply (generate_leaves_working_precision "1.23e10" 15 None None false
           initial_world (mkTestCase "1.23e10" 15 "12300000000.0" None None)).
  vm_compute. reflexivity.
Defined.

(** C1 (the program departs from it): the expected string depends on
    the calls made before.  Two calls of [generate("0.149", 1)] in a row
    give "0.1" and then "0.2": the first leaves the working precision at
    2, and the second rounds the product to 0.15 before rendering it.
    Likewise [generate("1.5", 1)] gives "1.5" in a fresh process and "2.0"
    once [generate("1", 0)] has left the working precision at 1. *)
Theorem generate_depends_on_prior_calls :
  fst ((first <- TestCaseGenerator.generate "0.149" 1 None None false ;;
        second <- TestCaseGenerator.generate "0.149" 1 None None false ;;
        ret (expected first, expected second)) initial_world)
    = Returned ("0.1", "0.2") /\
  fst ((first <- TestCaseGenerator.generate "1.5" 1 None None false ;;
        _ <- TestCaseGenerator.generate "1" 0 None None false ;;
        second <- TestCaseGenerator.generate "1.5" 1 None None false ;;
        ret (expected first, expected second)) initial_world)
    = Returned ("1.5", "2.0").
Proof. split; vm_compute; reflexivity. Qed.

(** C2 (the program departs from it): the multiply step runs before the
    working precision is set.  For a 35-digit literal at precision 34 in a
    fresh process the product is rounded to the 28 digits in force on
    entry; only afterwards is the precision set to 34 + 0 + 1 = 35, and
    the expected string has lost the last seven digits that the generator
    with the precision set first keeps. *)
Theorem multiply_precedes_prec_setting :
  let literal := "1.2345678901234567890123456789012345" in
  fst (TestCaseGenerator._calculate_number
         "1" "2345678901234567890123456789012345" 0 initial_world)
    = Returned (PyDecimal.mkDecimal false 1234567890123456789012345679 (-27)) /\
  PyDecimal.prec
    (getcontext (snd (TestCaseGenerator.generate literal 34 None None false
                        initial_world))) = 35 /\
  fst (TestCaseGenerator.generate literal 34 None None false initial_world)
    = Returned (mkTestCase literal 34 "1.234567890123456789012345679" None None) /\
  fst (Spec.generate_prec_first literal 34 None None false initial_world)
    = Returned (mkTestCase literal 34 literal None None).
Proof. repeat split; vm_compute; reflexivity. Qed.

(** ** Rounding to the context *)

(** A product that fits the working precision and the exponent range is
    kept as it is. *)
Lemma _fix_exact :
  forall ctx d,
    PyDecimal.coeff d <> 0%N ->
    PyDecimal.ndigits (PyDecimal.coeff d) <= PyDecimal.prec ctx ->
    PyDecimal.ndigits (PyDecimal.coeff d) + PyDecimal.exp d <= PyDecimal.Emax + 1 ->
    PyDecimal.Etiny ctx <= PyDecimal.exp d ->
    PyDecimal._fix ctx d = Returned d.
Proof.
  intros ctx d Hnz Hprec Hmax Htiny. unfold PyDecimal._fix.
  destruct (N.eqb_spec (PyDecimal.coeff d) 0) as [H0|_]; [contradiction|].
  unfold PyDecimal.Etop, PyDecimal.Etiny, PyDecimal.Emax, PyDecimal.Emin in *.
  destruct (Z.ltb_spec (999999 - PyDecimal.prec ctx + 1)
              (PyDecimal.ndigits (PyDecimal.coeff d) + PyDecimal.exp d
               - PyDecimal.prec ctx)) as [H|_]; [lia|].
  destruct (Z.ltb_spec (PyDecimal.exp d)
              (Z.max (PyDecimal.ndigits (PyDecimal.coeff d) + PyDecimal.exp d
                      - PyDecimal.prec ctx)
                     (-999999 - PyDecimal.prec ctx + 1))) as [H|_]; [lia|].
  reflexivity.
Qed.

(** A product whose adjusted exponent stays below [Emax] never
    overflows, whatever the working precision. *)
Lemma _fix_returns :
  forall ctx d,
    PyDecimal.ndigits (PyDecimal.coeff d) + PyDecimal.exp d <= PyDecimal.Emax ->
    exists d', PyDecimal._fix ctx d = Returned d'.
Proof.
  intros ctx d Hmax. unfold PyDecimal._fix.
  destruct (PyDecimal.coeff d =? 0)%N; [eexists; reflexivity|].
  unfold PyDecimal.Etop, PyDecimal.Etiny, PyDecimal.Emax, PyDecimal.Emin in *.
  set (nd := PyDecimal.ndigits (PyDecimal.coeff d)) in *.
  destruct (Z.ltb_spec (999999 - PyDecimal.prec ctx + 1)
              (nd + PyDecimal.exp d - PyDecimal.prec ctx)) as [H|_]; [lia|].
  set (exp_min := Z.max (nd + PyDecimal.exp d - PyDecimal.prec ctx)
                        (-999999 - PyDecimal.prec ctx + 1)).
  destruct (PyDecimal.exp d <? exp_min); [|eexists; reflexivity].
  destruct (PyDecimal.prec ctx <? _).
  - destruct (Z.ltb_spec (999999 - PyDecimal.prec ctx + 1) (exp_min + 1))
      as [H|_]; [unfold exp_min in H; lia | eexists; reflexivity].
  - destruct (Z.ltb_spec (999999 - PyDecimal.prec ctx + 1) exp_min)
      as [H|_]; [unfold exp_min in H; lia | eexists; reflexivity].
Qed.

Lemma pow10_0 :
  forall ctx, 1 <= PyDecimal.prec ctx ->
    PyDecimal.pow10 ctx 0 = Returned (PyDecimal.mkDecimal false 1 0).
Proof.
  intros ctx H. unfold PyDecimal.pow10.
  change (PyDecimal.Emax <? 0) with false. change (0 <=? 0) with true.
  cbv iota. rewrite Z.min_l by lia. reflexivity.
Qed.

Lemma mul_one :
  forall ctx d,
    PyDecimal.mul ctx d (PyDecimal.mkDecimal false 1 0) = PyDecimal._fix ctx d.
Proof.
  intros ctx [s c e]. unfold PyDecimal.mul. cbn [PyDecimal.sign PyDecimal.coeff PyDecimal.exp].
  now rewrite xorb_false_r, N.mul_1_r, Z.add_0_r.
Qed.

(** Where the order of the two steps does no harm: a literal without
    exponent part whose digits fit the working precision found on entry
    is multiplied exactly, and its expected string is the literal itself
    rounded half to even to [precision] fractional digits. *)
Lemma generate_exact_without_exponent :
  forall num_str precision radix base verbose w integer_part fractional_part m,
    NumberParser.parse num_str = Returned (integer_part, fractional_part, 0) ->
    PyDecimal.of_str (integer_part ++ "." ++ fractional_part) = Returned m ->
    Spec.fits (getcontext w) m ->
    1 <= PyDecimal.prec (getcontext w) ->
    0 <= precision < PyDecimal.MAX_PREC ->
    TestCaseGenerator.generate num_str precision radix base verbose w
    = (Returned
         (mkTestCase num_str precision
            (NumberGenerator._remove_trailing_zeros (PyDecimal.format_f m precision))
            radix base),
       mkWorld (PyDecimal.mkContext (precision + 1)) (stdout w)).
Proof.
  intros num_str p radix base verbose w ip fp m Hparse Hm Hfits Hprec Hp.
  destruct Hfits as (Hnz & Hnd & Hmax & Htiny).
  rewrite generate_unfold, Hparse, _calculate_number_world, Hm.
  rewrite pow10_0, mul_one, _fix_exact by assumption.
  cbn [fst]. cbv zeta.
  replace (p + Z.max 0 0 + 1) with (p + 1) by lia.
  replace (1 <=? p + 1) with true by (symmetry; apply Z.leb_le; lia).
  replace (p + 1 <=? PyDecimal.MAX_PREC) with true by (symmetry; apply Z.leb_le; lia).
  replace (p <? 0) with false by (symmetry; apply Z.ltb_ge; lia).
  reflexivity.
Qed.

(** For instance "0.149" at one fractional digit is "0.1" under every
    working precision of three digits or more. *)
Example generate_0_149_exact :
  forall w,
    3 <= PyDecimal.prec (getcontext w) <= PyDecimal.MAX_PREC ->
    fst (TestCaseGenerator.generate "0.149" 1 None None false w)
    = Returned (mkTestCase "0.149" 1 "0.1" None None).
Proof.
  intros w H.
  rewrite (generate_exact_without_exponent "0.149" 1 None None false w
             "0" "149" (PyDecimal.mkDecimal false 149 (-3))).
  - reflexivity.
  - reflexivity.
  - reflexivity.
  - unfold Spec.fits, PyDecimal.Etiny, PyDecimal.Emin, PyDecimal.Emax.
    change (PyDecimal.ndigits _) with 3. cbn [PyDecimal.coeff PyDecimal.exp].
    unfold PyDecimal.MAX_PREC in H. repeat split; lia || discriminate.
  - lia.
  - unfold PyDecimal.MAX_PREC. lia.
Qed.

(** ** A worked literal under any sufficient working precision *)

(** A power of ten that fits the working precision is written out in
    full. *)
Lemma pow10_fits :
  forall ctx n,
    0 <= n <= PyDecimal.Emax -> n < PyDecimal.prec ctx ->
    PyDecimal.pow10 ctx n = Returned (PyDecimal.mkDecimal false (10 ^ Z.to_N n) 0).
Proof.
  intros ctx n [H0 Hmax] Hprec. unfold PyDecimal.pow10.
  destruct (Z.ltb_spec PyDecimal.Emax n) as [H|_]; [lia|].
  destruct (Z.leb_spec 0 n) as [_|H]; [|lia].
  rewrite Z.min_l by lia. now rewrite Z.sub_diag.
Qed.

(** [generate("1.23e10", 15)] gives "12300000000.0" under every working
    precision of three digits or more; with one or two digits the product
    itself is rounded (under precision 2 the result is "12000000000.0"). *)
Lemma generate_1_23e10_at_15_any_context :
  forall radix base verbose w,
    3 <= PyDecimal.prec (getcontext w) <= PyDecimal.MAX_PREC ->
    fst (TestCaseGenerator.generate "1.23e10" 15 radix base verbose w)
      = Returned (mkTestCase "1.23e10" 15 "12300000000.0" radix base).
Proof.
  intros radix base verbose [[prec] out] H. cbn [getcontext PyDecimal.prec] in H.
  assert (Hcases : prec = 3 \/ prec = 4 \/ prec = 5 \/ prec = 6 \/ prec = 7 \/
                   prec = 8 \/ prec = 9 \/ prec = 10 \/ prec = 11 \/
                   prec = 12 \/ 13 <= prec) by lia.
  repeat (destruct Hcases as [->|Hcases]; [vm_compute; reflexivity|]).
  rewrite generate_unfold.
  change (NumberParser.parse "1.23e10") with (Returned ("1", "23", 10)).
  cbv beta iota. rewrite _calculate_number_world.
  change (PyDecimal.of_str ("1" ++ "." ++ "23"))
    with (Returned (PyDecimal.mkDecimal false 123 (-2))).
  cbn [getcontext fst]. cbv beta iota.
  rewrite pow10_fits by (cbn [PyDecimal.prec]; unfold PyDecimal.Emax; lia).
  unfold PyDecimal.mul.
  change (PyDecimal.mkDecimal _ _ _)
    with (PyDecimal.mkDecimal false 1230000000000 (-2)).
  rewrite _fix_exact.
  - vm_compute. reflexivity.
  - discriminate.
  - change (PyDecimal.ndigits _) with 13. cbn [PyDecimal.prec]. lia.
  - vm_compute. discriminate.
  - unfold PyDecimal.Etiny, PyDecimal.Emin. cbn [PyDecimal.prec PyDecimal.exp]. lia.
Qed.

Example generate_1_23e10_at_15_two_digits :
  fst (TestCaseGenerator.generate "1.23e10" 15 None None false
         (mkWorld (PyDecimal.mkContext 2) []))
  = Returned (mkTestCase "1.23e10" 15 "12000000000.0" None None).
Proof. vm_compute. reflexivity. Qed.

(** In a fresh process, [generate("1.23e10", 15)] multiplies 1.23 by
    10^10 exactly, renders the product at 15 fractional digits as
    "12300000000.000000000000000", and trailing-zero stripping reduces
    that to the expected string "12300000000.0". *)
Lemma generate_1_23e10_at_15_fresh_process :
  forall (radix base : option Z) (verbose : bool),
    NumberParser.parse "1.23e10" = Returned ("1", "23", 10) /\
    (exists number,
        fst (TestCaseGenerator._calculate_number "1" "23" 10 initial_world)
          = Returned number /\
        PyDecimal.format_f number 15 = "12300000000.000000000000000") /\
    NumberGenerator._remove_trailing_zeros "12300000000.000000000000000"
      = "12300000000.0" /\
    fst (TestCaseGenerator.generate "1.23e10" 15 radix base verbose initial_world)
      = Returned (mkTestCase "1.23e10" 15 "12300000000.0" radix base).
Proof.
  intros radix base verbose. repeat split.
  eexists. split; [vm_compute; reflexivity | vm_compute; reflexivity].
Qed.

(** C7: [generate("1.23e10", 15)] gives "12300000000.0" in a fresh
    process, but not whatever ran before: its multiply step runs at the
    working precision found on entry.  [generate("0.5", 1)] returns and
    leaves two digits; called next, [generate("1.23e10", 15)] rounds
    1.23 * 10^10 to 1.2E+10, renders it at 15 fractional digits as
    "12000000000.000000000000000", and returns the expected string
    "12000000000.0".  A case file with the lines "0.5 1" and
    "1.23e10 15" is read that way. *)
Theorem generate_1_23e10_at_15_after_a_call :
  forall (radix base : option Z) (verbose : bool),
    fst (TestCaseGenerator.generate "1.23e10" 15 radix base verbose initial_world)
      = Returned (mkTestCase "1.23e10" 15 "12300000000.0" radix base) /\
    (exists tc w1 number,
        TestCaseGenerator.generate "0.5" 1 radix base verbose initial_world
          = (Returned tc, w1) /\
        PyDecimal.prec (getcontext w1) = 2 /\
        fst (TestCaseGenerator._calculate_number "1" "23" 10 w1) = Returned number /\
        PyDecimal.format_f number 15 = "12000000000.000000000000000" /\
        fst (TestCaseGenerator.generate "1.23e10" 15 radix base verbose w1)
          = Returned (mkTestCase "1.23e10" 15 "12000000000.0" radix base)) /\
    fst (TestCaseReader.read_from_file "cases.txt"
           ("0.5 1" ++ TestCaseVerifier.newline ++ "1.23e10 15")
           verbose initial_world)
      = Returned [mkTestCase "0.5" 1 "0.5" None None;
                  mkTestCase "1.23e10" 15 "12000000000.0" None None].
Proof.
  intros radix base verbose. split; [vm_compute; reflexivity|]. split.
  - eexists. eexists. eexists.
    split; [vm_compute; reflexivity|].
    split; [reflexivity|].
    split; [vm_compute; reflexivity|].
    split; vm_compute; reflexivity.
  - destruct verbose; vm_compute; reflexivity.
Qed.

(** ** The fixed-point form, for one fractional digit or more *)

Lemma all_digits_uint :
  forall d, Spec.all_digits (NilEmpty.string_of_uint d) = true.
Proof. induction d; simpl; auto. Qed.

Lemma of_N_digits :
  forall n, Spec.all_digits (Str.of_N n) = true /\ Str.of_N n <> "".
Proof.
  intros n. unfold Str.of_N, NilZero.string_of_uint.
  destruct (N.to_uint n) eqn:E; (split; [|discriminate]);
    try reflexivity; rewrite <- E at 1;
    try (rewrite E; apply all_digits_uint).
Qed.

Lemma all_digits_app :
  forall s t, Spec.all_digits (s ++ t) = Spec.all_digits s && Spec.all_digits t.
Proof.
  induction s as [|c s IH]; intros t; simpl; [reflexivity|].
  now rewrite IH, andb_assoc.
Qed.

Lemma all_digits_repeat_0 : forall n, Spec.all_digits (Str.repeat "0" n) = true.
Proof. induction n; simpl; auto. Qed.

Lemma all_digits_take :
  forall n s, Spec.all_digits s = true -> Spec.all_digits (Str.take n s) = true.
Proof.
  induction n as [|n IH]; intros [|c s] H; simpl in *; try reflexivity.
  apply andb_true_iff in H. destruct H as [Hc Hs]. now rewrite Hc, IH.
Qed.

Lemma all_digits_drop :
  forall n s, Spec.all_digits s = true -> Spec.all_digits (Str.drop n s) = true.
Proof.
  induction n as [|n IH]; intros [|c s] H; simpl in *; try assumption; try reflexivity.
  apply andb_true_iff in H. destruct H as [_ Hs]. now apply IH.
Qed.

Lemma all_digits_rstrip :
  forall f s, Spec.all_digits s = true -> Spec.all_digits (Str.rstrip_by f s) = true.
Proof.
  intros f. induction s as [|c s IH]; intros H; simpl in *; [reflexivity|].
  apply andb_true_iff in H. destruct H as [Hc Hs]. specialize (IH Hs).
  destruct (Str.rstrip_by f s).
  - destruct (f c); simpl; [reflexivity | now rewrite Hc].
  - cbn [Spec.all_digits] in *. now rewrite Hc, IH.
Qed.

Lemma length_append :
  forall s t, String.length (s ++ t) = (String.length s + String.length t)%nat.
Proof. induction s as [|c s IH]; intros t; simpl; [reflexivity | now rewrite IH]. Qed.

Lemma length_repeat : forall c n, String.length (Str.repeat c n) = n.
Proof. induction n; simpl; auto. Qed.

Lemma length_drop :
  forall n s, (n <= String.length s)%nat ->
    String.length (Str.drop n s) = (String.length s - n)%nat.
Proof.
  induction n as [|n IH]; intros [|c s] H; simpl in *; try lia.
  apply IH. lia.
Qed.

Lemma length_take :
  forall n s, (n <= String.length s)%nat -> String.length (Str.take n s) = n.
Proof.
  induction n as [|n IH]; intros [|c s] H; simpl in *; try lia.
  rewrite IH; lia.
Qed.

Lemma digit_is_not_point : forall c, Str.is_digit c = true -> Ascii.eqb c "." = false.
Proof.
  intros c. destruct c as [[] [] [] [] [] [] [] []]; vm_compute; congruence.
Qed.

(** Stripping stops at a character it does not strip. *)
Lemma rstrip_by_app_keep :
  forall f x c t,
    f c = false ->
    Str.rstrip_by f (x ++ String c t) = x ++ String c (Str.rstrip_by f t).
Proof.
  intros f x c t Hc. induction x as [|a x IH]; simpl.
  - rewrite Hc. destruct (Str.rstrip_by f t); reflexivity.
  - rewrite IH. destruct x; reflexivity.
Qed.

(** What is left after [rstrip(ch)] does not end in [ch]. *)
Lemma rstrip_endswith :
  forall ch s, Str.endswith (Str.rstrip ch s) (String ch "") = false.
Proof.
  intros ch. unfold Str.rstrip. induction s as [|c s IH]; simpl; [reflexivity|].
  destruct (Str.rstrip_by (Ascii.eqb ch) s) as [|a r] eqn:E.
  - destruct (Ascii.eqb ch c) eqn:Ec; simpl; [reflexivity|].
    rewrite Ascii.eqb_sym, Ec. reflexivity.
  - cbn [Str.endswith String.eqb] in *.
    destruct (Ascii.eqb c ch); exact IH.
Qed.

Lemma endswith_app_self :
  forall x suffix, Str.endswith (x ++ suffix) suffix = true.
Proof.
  induction x as [|a x IH]; intros suffix; simpl.
  - destruct suffix; simpl; [reflexivity|].
    now rewrite Ascii.eqb_refl, String.eqb_refl.
  - rewrite IH. apply orb_true_r.
Qed.

Lemma endswith_app_nonempty :
  forall x t ch,
    t <> "" ->
    Str.endswith (x ++ t) (String ch "") = Str.endswith t (String ch "").
Proof.
  induction x as [|a x IH]; intros t ch Ht; [reflexivity|].
  cbn [append Str.endswith String.eqb]. rewrite (IH t ch Ht).
  destruct (x ++ t) eqn:E.
  - destruct x; [simpl in E; contradiction | discriminate].
  - destruct (Ascii.eqb a ch); reflexivity.
Qed.

Lemma endswith_point_digits :
  forall t, Spec.all_digits t = true -> Str.endswith t "." = false.
Proof.
  induction t as [|c t IH]; intros H; [reflexivity|].
  cbn [Spec.all_digits] in H. apply andb_true_iff in H. destruct H as [Hc Ht].
  cbn [Str.endswith String.eqb]. rewrite (digit_is_not_point c Hc), (IH Ht).
  reflexivity.
Qed.

(** The rendering at one fractional digit or more: a sign, the integer
    digits, the point, exactly [p] fractional digits. *)
Lemma format_f_shape :
  forall d p, 1 <= p ->
    exists i f,
      PyDecimal.format_f d p
        = (if PyDecimal.sign d then "-" else "") ++ i ++ "." ++ f /\
      Spec.all_digits i = true /\ i <> "" /\
      Spec.all_digits f = true /\ String.length f = Z.to_nat p.
Proof.
  intros d p Hp. unfold PyDecimal.format_f.
  set (digits := Str.of_N _).
  destruct (of_N_digits (PyDecimal.coeff (PyDecimal.rescale d (- p))))
    as [Hd Hne]. fold digits in Hd, Hne.
  assert (Hw : (1 <= Z.to_nat p)%nat) by lia.
  set (w := Z.to_nat p) in *.
  assert (Hfrac : forall f, String.length f = w -> String.eqb f "" = false).
  { intros [|c f] Hf; [simpl in Hf; lia | reflexivity]. }
  destruct (Nat.ltb_spec (String.length digits) w) as [Hlt|Hge].
  - exists "0", (Str.repeat "0" (w - String.length digits) ++ digits).
    assert (Hlen : String.length (Str.repeat "0" (w - String.length digits) ++ digits) = w).
    { rewrite length_append, length_repeat. lia. }
    rewrite (Hfrac _ Hlen). repeat split; try assumption; try discriminate.
    now rewrite all_digits_app, all_digits_repeat_0, Hd.
  - set (k := (String.length digits - w)%nat).
    assert (Hlen : String.length (Str.drop k digits) = w).
    { rewrite length_drop; unfold k; lia. }
    rewrite (Hfrac _ Hlen).
    exists (if String.eqb (Str.take k digits) "" then "0" else Str.take k digits),
           (Str.drop k digits).
    repeat split; try assumption.
    + destruct (String.eqb (Str.take k digits) ""); [reflexivity|].
      now apply all_digits_take.
    + destruct (String.eqb_spec (Str.take k digits) ""); [discriminate | assumption].
    + now apply all_digits_drop.
Qed.

(** Trimming a rendering of that shape touches the fractional digits
    only, and leaves a lone "0" when they were all zeros. *)
Lemma _remove_trailing_zeros_shape :
  forall x f,
    Spec.all_digits f = true ->
    NumberGenerator._remove_trailing_zeros (x ++ "." ++ f)
    = x ++ "." ++ (if String.eqb (Str.rstrip "0" f) "" then "0" else Str.rstrip "0" f).
Proof.
  intros x f Hf. unfold NumberGenerator._remove_trailing_zeros.
  assert (Hstrip : Str.rstrip "0" (x ++ "." ++ f) = x ++ String "." (Str.rstrip "0" f)).
  { unfold Str.rstrip. change ("." ++ f) with (String "." f).
    now apply rstrip_by_app_keep. }
  rewrite Hstrip. destruct (String.eqb_spec (Str.rstrip "0" f) "") as [E|NE].
  - rewrite E. rewrite (endswith_app_self x "."). cbn [negb].
    now rewrite append_assoc.
  - rewrite endswith_app_nonempty by discriminate.
    cbn [Str.endswith String.eqb]. rewrite Ascii.eqb_refl.
    destruct (String.eqb_spec (Str.rstrip "0" f) "") as [E|_]; [contradiction|].
    rewrite endswith_point_digits by (now apply all_digits_rstrip).
    reflexivity.
Qed.

(** The fixed-point form of the expected string at precision 1 and
    above: [<sign><integer>.<fraction>], with the integer digits those of
    the rendering, at least one fractional digit, and no trailing zero
    unless the fraction is the single digit "0". *)
Theorem _format_number_fixed_point_form :
  forall number precision exponent w s w',
    1 <= precision ->
    TestCaseGenerator._format_number number precision exponent w = (Returned s, w') ->
    exists i f0 f,
      PyDecimal.format_f number precision
        = (if PyDecimal.sign number then "-" else "") ++ i ++ "." ++ f0 /\
      s = (if PyDecimal.sign number then "-" else "") ++ i ++ "." ++ f /\
      Spec.all_digits i = true /\ i <> "" /\
      Spec.all_digits f = true /\ f <> "" /\
      (f = "0" \/ Str.endswith f "0" = false).
Proof.
  intros number p e w s w' Hp H.
  apply _format_number_returned in H. destruct H as (_ & _ & Hs & _).
  destruct (format_f_shape number p Hp) as (i & f0 & Hfmt & Hi & Hine & Hf0 & _).
  exists i, f0, (if String.eqb (Str.rstrip "0" f0) "" then "0" else Str.rstrip "0" f0).
  split; [assumption|]. split.
  { rewrite Hs, Hfmt.
    rewrite <- (append_assoc _ i ("." ++ f0)).
    rewrite (_remove_trailing_zeros_shape _ f0 Hf0). apply append_assoc. }
  split; [assumption|]. split; [assumption|].
  destruct (String.eqb_spec (Str.rstrip "0" f0) "") as [E|NE].
  - repeat split; [discriminate | now left].
  - repeat split; [now apply all_digits_rstrip | assumption |].
    right. apply rstrip_endswith.
Qed.

(** C4 (the program departs from it): at precision 0 the rendering has no
    decimal point, so stripping trailing zeros eats into the integer part:
    10 becomes "1", 0 becomes the empty string, -0.4 becomes "-", and 5
    stays "5" with no fractional digit at all. *)
Theorem precision_0_strips_the_integer_part :
  NumberGenerator._remove_trailing_zeros "10" = "1" /\
  map (fun s => fst (TestCaseGenerator.generate s 0 None None false initial_world))
      ["10"; "0"; "-0.4"; "5"]
  = [Returned (mkTestCase "10" 0 "1" None None);
     Returned (mkTestCase "0" 0 "" None None);
     Returned (mkTestCase "-0.4" 0 "-" None None);
     Returned (mkTestCase "5" 0 "5" None None)].
Proof. split; vm_compute; reflexivity. Qed.

(** ** Malformed and non-finite literals *)

(** C5 (the program departs from it): malformed literals are not turned
    into an "Invalid input" record.  A second decimal point or exponent
    marker is dropped by the parser and the rest is rendered as a number;
    a non-digit mantissa raises [InvalidOperation] and a non-integer
    exponent raises [ValueError], neither of which the case generator
    catches. *)
Theorem malformed_literals_are_coerced_or_raise :
  map (fun s => fst (TestCaseGenerator.generate s 1 None None false initial_world))
      ["1.2.3"; "1e2e3"; "abc"; "1ex"]
  = [Returned (mkTestCase "1.2.3" 1 "1.2" None None);
     Returned (mkTestCase "1e2e3" 1 "100.0" None None);
     Raised InvalidOperation;
     Raised ValueError].
Proof. vm_compute; reflexivity. Qed.

(** C6 (the program departs from it): each non-finite sentinel of the
    catalog reaches the decimal constructor as text it refuses
    ("custom_infinity." and the like), the constructor raises
    [InvalidOperation], nothing catches it, and the catalog produces no
    record. *)
Theorem special_cases_raise :
  map (fun s => fst (TestCaseGenerator.generate s 0 None None false initial_world))
      ["CUSTOM_INFINITY"; "-CUSTOM_INFINITY"; "CUSTOM_NAN"]
  = [Raised InvalidOperation; Raised InvalidOperation; Raised InvalidOperation] /\
  NumberParser.parse "CUSTOM_INFINITY" = Returned ("custom_infinity", "", 0) /\
  PyDecimal.of_str "custom_infinity." = Raised InvalidOperation /\
  forall verbose w,
    SpecialCaseGenerator.generate_special_cases verbose w
      = (Raised InvalidOperation, w).
Proof. repeat split. Qed.

(** The spellings the [decimal] module itself reads as infinities and
    NaNs fare no better: the point appended to the integer part spoils
    them. *)
Example library_spellings_raise_too :
  map (fun s => fst (TestCaseGenerator.generate s 0 None None false initial_world))
      ["Infinity"; "-inf"; "NaN"]
  = [Raised InvalidOperation; Raised InvalidOperation; Raised InvalidOperation].
Proof. vm_compute. reflexivity. Qed.

(** ** The verifier *)





(** The batch of the specification: three records that verify and two
    with a corrupted expected string give exactly two [FAIL] texts, the
    first of them followed by the remaining records. *)
Example verify_three_pass_two_corrupted :
  let good s e := mkTestCase s 1 e None None in
  TestCaseVerifier.verify
    [good "1.5" "1.5"; good "2.25" "9.9"; good "3" "3.0"; good "0.5" "oops";
     good "7.1" "7.1"] true initial_world
  = (Returned tt,
     mkWorld (PyDecimal.mkContext 2)
       ["PASS: 1.5";
        "FAIL: 2.25" ++ TestCaseVerifier.newline ++ "Expected: 9.9"
        ++ TestCaseVerifier.newline ++ "Actual: 2.2" ++ TestCaseVerifier.newline;
        "PASS: 3";
        "FAIL: 0.5" ++ TestCaseVerifier.newline ++ "Expected: oops"
        ++ TestCaseVerifier.newline ++ "Actual: 0.5" ++ TestCaseVerifier.newline;
        "PASS: 7.1"]).
Proof. vm_compute. reflexivity. Qed.

(** C3 (the program departs from it): a freshly generated record does not
    always verify.  In a fresh process [generate("0.149", 1)] rounds 0.149
    to "0.1" and leaves the working precision at 2; the verifier's re-run
    first rounds the product to two digits, 0.15, then to one fractional
    digit, and reports [FAIL] with actual "0.2". *)
Theorem fresh_record_fails_verification :
  exists tc w,
    TestCaseGenerator.generate "0.149" 1 None None false initial_world
      = (Returned tc, w) /\
    expected tc = "0.1" /\
    TestCaseVerifier.verify [tc] false w
      = (Returned tt,
         mkWorld (PyDecimal.mkContext 2)
           ["FAIL: 0.149" ++ TestCaseVerifier.newline
            ++ "Expected: 0.1" ++ TestCaseVerifier.newline
            ++ "Actual: 0.2" ++ TestCaseVerifier.newline]).
Proof.
  eexists. eexists. split; [vm_compute; reflexivity |].
  split; vm_compute; reflexivity.
Qed.

(** ** The pi catalog *)

Lemma parse_pi :
  NumberParser.parse SpecialCaseGenerator.pi
  = Returned ("3", "14159265358979323846264338327950288419716939937510", 0).
Proof. vm_compute. reflexivity. Qed.

Lemma of_str_pi :
  PyDecimal.of_str ("3" ++ "." ++ "14159265358979323846264338327950288419716939937510")
  = Returned Spec.pi_decimal.
Proof. vm_compute. reflexivity. Qed.

Lemma ndigits_pi : PyDecimal.ndigits (PyDecimal.coeff Spec.pi_decimal) = 51.
Proof. vm_compute. reflexivity. Qed.

(** The multiply step on the pi literal: it returns under every working
    precision, and keeps all 51 digits when the precision is at least 51. *)
Lemma _calculate_number_pi :
  forall w,
    1 <= PyDecimal.prec (getcontext w) ->
    exists number,
      TestCaseGenerator._calculate_number
        "3" "14159265358979323846264338327950288419716939937510" 0 w
      = (Returned number, w) /\
      (51 <= PyDecimal.prec (getcontext w) <= PyDecimal.MAX_PREC ->
       number = Spec.pi_decimal).
Proof.
  intros w Hprec. rewrite _calculate_number_world, of_str_pi, pow10_0, mul_one by assumption.
  destruct (_fix_returns (getcontext w) Spec.pi_decimal) as [d' Hd'].
  { rewrite ndigits_pi. vm_compute. discriminate. }
  exists d'. rewrite Hd'. split; [reflexivity|].
  intros H51. rewrite _fix_exact in Hd'.
  - now inversion Hd'.
  - discriminate.
  - rewrite ndigits_pi. lia.
  - rewrite ndigits_pi. vm_compute. discriminate.
  - unfold PyDecimal.Etiny, PyDecimal.Emin, PyDecimal.MAX_PREC in *. cbn [PyDecimal.exp Spec.pi_decimal]. lia.
Qed.

(** One call of the catalog. *)
Lemma generate_pi :
  forall i radix base verbose w,
    1 <= PyDecimal.prec (getcontext w) ->
    0 <= i < PyDecimal.MAX_PREC ->
    exists number,
      TestCaseGenerator.generate SpecialCaseGenerator.pi i radix base verbose w
      = (Returned
           (mkTestCase SpecialCaseGenerator.pi i
              (NumberGenerator._remove_trailing_zeros (PyDecimal.format_f number i))
              radix base),
         mkWorld (PyDecimal.mkContext (i + 1)) (stdout w)) /\
      (51 <= PyDecimal.prec (getcontext w) <= PyDecimal.MAX_PREC ->
       number = Spec.pi_decimal).
Proof.
  intros i radix base verbose w Hprec Hi.
  destruct (_calculate_number_pi w Hprec) as (number & Hcalc & Hexact).
  exists number. split; [|exact Hexact].
  rewrite generate_unfold, parse_pi, Hcalc. cbn [fst]. cbv zeta.
  replace (i + Z.max 0 0 + 1) with (i + 1) by lia.
  replace (1 <=? i + 1) with true by (symmetry; apply Z.leb_le; lia).
  replace (i + 1 <=? PyDecimal.MAX_PREC) with true by (symmetry; apply Z.leb_le; lia).
  replace (i <? 0) with false by (symmetry; apply Z.ltb_ge; lia).
  reflexivity.
Qed.

Lemma pi_comprehension :
  forall l verbose w,
    1 <= PyDecimal.prec (getcontext w) ->
    Forall (fun i => 0 <= i < PyDecimal.MAX_PREC) l ->
    exists tcs w',
      comprehension
        (fun i => TestCaseGenerator.generate SpecialCaseGenerator.pi i None None verbose)
        l w = (Returned tcs, w') /\
      map precision tcs = l /\
      Forall (fun tc => num_str tc = SpecialCaseGenerator.pi) tcs.
Proof.
  induction l as [|i l IH]; intros verbose w Hprec Hl.
  - exists [], w. repeat split; constructor.
  - inversion Hl as [|? ? Hi Hl']; subst.
    destruct (generate_pi i None None verbose w Hprec Hi) as (number & Hgen & _).
    destruct (IH verbose (mkWorld (PyDecimal.mkContext (i + 1)) (stdout w)))
      as (tcs & w' & Hrest & Hmap & Hall); [cbn; lia | assumption |].
    eexists. exists w'. cbn [comprehension]. unfold bind at 1. rewrite Hgen.
    unfold bind at 1. rewrite Hrest. unfold ret. split; [reflexivity|].
    split; [cbn; now rewrite Hmap | constructor; [reflexivity | assumption]].
Qed.

Lemma range_bounds :
  forall a b i, In i (range a b) -> a <= i < b.
Proof.
  intros a b i H. unfold range in H. apply in_map_iff in H.
  destruct H as (k & <- & Hk). apply in_seq in Hk. lia.
Qed.

Lemma range_length : forall a b, List.length (range a b) = Z.to_nat (b - a).
Proof. intros. unfold range. now rewrite length_map, length_seq. Qed.

(** C9, as amended: for the 51-digit pi literal the catalog produces one
    record per precision level from 1 up to the caller-supplied maximum,
    each carrying the literal; and a call whose multiply step runs at a
    working precision of at least 51 digits yields the literal itself
    rounded half to even to [p] fractional digits, trailing zeros
    stripped.  (The expected string at [p1] is not, in general, the one at
    [p2] rounded again.) *)
Theorem pi_catalog :
  (forall count verbose w,
      Spec.valid_context (getcontext w) ->
      count < PyDecimal.MAX_PREC ->
      exists tcs w',
        SpecialCaseGenerator.generate_pi_approximations count verbose w
          = (Returned tcs, w') /\
        map precision tcs = range 1 (count + 1) /\
        List.length tcs = Z.to_nat count /\
        Forall (fun tc => num_str tc = SpecialCaseGenerator.pi) tcs) /\
  (forall p radix base verbose w,
      51 <= PyDecimal.prec (getcontext w) <= PyDecimal.MAX_PREC ->
      0 <= p < PyDecimal.MAX_PREC ->
      exists e,
        Spec.rounded_to SpecialCaseGenerator.pi p = Returned e /\
        fst (TestCaseGenerator.generate SpecialCaseGenerator.pi p radix base verbose w)
          = Returned (mkTestCase SpecialCaseGenerator.pi p e radix base)).
Proof.
  split.
  - intros count verbose w [Hprec _] Hcount.
    destruct (pi_comprehension (range 1 (count + 1)) verbose w Hprec)
      as (tcs & w' & Hrun & Hmap & Hall).
    { apply Forall_forall. intros i Hi. apply range_bounds in Hi. lia. }
    exists tcs, w'. repeat split; try assumption.
    rewrite <- (length_map precision), Hmap, range_length. f_equal. lia.
  - intros p radix base verbose w Hprec Hp.
    destruct (generate_pi p radix base verbose w) as (number & Hgen & Hexact);
      [lia | assumption |].
    rewrite (Hexact Hprec) in Hgen. eexists. split; [|rewrite Hgen; reflexivity].
    unfold Spec.rounded_to.
    change (PyDecimal.of_str SpecialCaseGenerator.pi) with (Returned Spec.pi_decimal).
    reflexivity.
Qed.

(** The catalog asked for three records in a fresh process, and one call
    at precision 7 after the edge cases have left the working precision
    at 617. *)
Lemma pi_catalog_witness :
  (exists tcs w',
      SpecialCaseGenerator.generate_pi_approximations 3 false initial_world
        = (Returned tcs, w') /\
      map precision tcs = range 1 (3 + 1) /\
      List.length tcs = Z.to_nat 3 /\
      Forall (fun tc => num_str tc = SpecialCaseGenerator.pi) tcs) /\
  (exists e,
      Spec.rounded_to SpecialCaseGenerator.pi 7 = Returned e /\
      fst (TestCaseGenerator.generate SpecialCaseGenerator.pi 7 None None false
             (mkWorld (PyDecimal.mkContext 617) []))
        = Returned (mkTestCase SpecialCaseGenerator.pi 7 e None None)).
Proof.
  split.
  - apply (proj1 pi_catalog 3 false initial_world).
    + unfold Spec.valid_context. vm_compute. split; discriminate.
    + reflexivity.
  - apply (proj2 pi_catalog 7 None None false (mkWorld (PyDecimal.mkContext 617) [])).
    + vm_compute. split; discriminate.
    + vm_compute. split; [discriminate | reflexivity].
Defined.

(** C9 as stated fails.  In a fresh process the catalog's second record
    is "3.1" and its third "3.14", which rounded to two fractional digits
    is not "3.1".  And the relation fails for the digits of pi themselves:
    with every digit of the literal kept, precision 7 gives "3.1415927"
    while the string at precision 8, "3.14159265", rounds half to even to
    "3.1415926". *)
Lemma pi_rounding_is_not_nested :
  (exists tc1 tc2 tc3 w,
      SpecialCaseGenerator.generate_pi_approximations 3 false initial_world
        = (Returned [tc1; tc2; tc3], w) /\
      expected tc2 = "3.1" /\ expected tc3 = "3.14" /\
      Spec.rounded_to (expected tc3) 2 = Returned "3.14" /\
      Spec.rounded_to (expected tc3) 2 <> Returned (expected tc2)) /\
  (exists tc7 tc8 w7 w8,
      let w := mkWorld (PyDecimal.mkContext 617) [] in
      TestCaseGenerator.generate SpecialCaseGenerator.pi 7 None None false w
        = (Returned tc7, w7) /\
      TestCaseGenerator.generate SpecialCaseGenerator.pi 8 None None false w
        = (Returned tc8, w8) /\
      expected tc7 = "3.1415927" /\ expected tc8 = "3.14159265" /\
      Spec.rounded_to (expected tc8) 7 = Returned "3.1415926" /\
      Spec.rounded_to (expected tc8) 7 <> Returned (expected tc7)).
Proof.
  split.
  - do 4 eexists. split; [vm_compute; reflexivity|].
    repeat split; try (vm_compute; reflexivity). vm_compute. discriminate.
  - do 4 eexists. cbv zeta. split; [vm_compute; reflexivity|].
    split; [vm_compute; reflexivity|].
    repeat split; try (vm_compute; reflexivity). vm_compute. discriminate.
Qed.

(** The other two families of the catalog return, and leave the working
    precision at 308 + 308 + 1 and at 324 + 0 + 1. *)
Example edge_and_subnormal_cases_leave_prec :
  (exists tcs,
      SpecialCaseGenerator.generate_edge_cases false initial_world
      = (Returned tcs, mkWorld (PyDecimal.mkContext 617) []) /\
      map precision tcs = [308; 308]) /\
  (exists tcs,
      SpecialCaseGenerator.generate_subnormal_cases false initial_world
      = (Returned tcs, mkWorld (PyDecimal.mkContext 325) []) /\
      map precision tcs = [324]).
Proof.
  split; eexists; (split; [vm_compute; reflexivity | reflexivity]).
Qed.

(** * Further properties *)

(** ** The parser *)

Lemma lower_app : forall a b, Str.lower (a ++ b) = Str.lower a ++ Str.lower b.
Proof. induction a as [|c a IH]; intros b; simpl; [reflexivity | now rewrite IH]. Qed.

Lemma lower_char_e :
  forall c, Ascii.eqb (Str.lower_char c) "e" = Ascii.eqb c "e" || Ascii.eqb c "E".
Proof. intros c. destruct c as [[] [] [] [] [] [] [] []]; vm_compute; reflexivity. Qed.

Lemma lower_char_point :
  forall c, Ascii.eqb (Str.lower_char c) "." = Ascii.eqb c ".".
Proof. intros c. destruct c as [[] [] [] [] [] [] [] []]; vm_compute; reflexivity. Qed.

Lemma contains_lower_e :
  forall s, Str.contains "e" (Str.lower s) = Str.contains "e" s || Str.contains "E" s.
Proof.
  induction s as [|c s IH]; simpl; [reflexivity|].
  rewrite IH, lower_char_e.
  destruct (Ascii.eqb c "e"), (Ascii.eqb c "E"), (Str.contains "e" s); reflexivity.
Qed.

Lemma contains_lower_point :
  forall s, Str.contains "." (Str.lower s) = Str.contains "." s.
Proof.
  induction s as [|c s IH]; simpl; [reflexivity|].
  now rewrite IH, lower_char_point.
Qed.

Lemma no_marker_lower :
  forall s, Notions.no_marker s -> Str.contains "e" (Str.lower s) = false.
Proof. intros s [He HE]. now rewrite contains_lower_e, He, HE. Qed.

Lemma split_no_sep :
  forall sep a, Str.contains sep a = false -> Str.split sep a = [a].
Proof.
  intros sep. induction a as [|c a IH]; intros H; simpl in *; [reflexivity|].
  apply orb_false_iff in H. destruct H as [Hc Ha].
  now rewrite Hc, (IH Ha).
Qed.

Lemma split_app_sep :
  forall sep a b,
    Str.contains sep a = false ->
    Str.split sep (a ++ String sep b) = a :: Str.split sep b.
Proof.
  intros sep. induction a as [|c a IH]; intros b H; simpl in *.
  - now rewrite Ascii.eqb_refl.
  - apply orb_false_iff in H. destruct H as [Hc Ha].
    now rewrite Hc, (IH b Ha).
Qed.

(** The two splits on lowercased text of the shape
    [integer . fraction [. more] e exponent [e more]]. *)
Lemma parse_pieces :
  forall s ip fp x more_m more_x n,
    Str.contains "." ip = false -> Str.contains "." fp = false ->
    Str.contains "e" ip = false -> Str.contains "e" fp = false ->
    Str.contains "e" more_m = false -> Str.contains "e" x = false ->
    (more_m = "" \/ exists j, more_m = String "." j) ->
    (more_x = "" \/ exists j, more_x = String "e" j) ->
    PyInt.of_str x = Returned n ->
    Str.lower s = ip ++ "." ++ fp ++ more_m ++ "e" ++ x ++ more_x ->
    NumberParser.parse s = Returned (ip, fp, n).
Proof.
  intros s ip fp x more_m more_x n Hip Hfp Heip Hefp Hem Hex Hm Hx Hint Hl.
  unfold NumberParser.parse, NumberParser._split_exponent. rewrite Hl.
  replace (ip ++ "." ++ fp ++ more_m ++ "e" ++ x ++ more_x)
    with ((ip ++ "." ++ fp ++ more_m) ++ String "e" (x ++ more_x))
    by (now rewrite !append_assoc).
  rewrite split_app_sep.
  2:{ rewrite !contains_app, Heip, Hefp, Hem. reflexivity. }
  assert (Hsecond : exists t, Str.split "e" (x ++ more_x) = x :: t).
  { destruct Hx as [->|[j ->]].
    - rewrite append_empty_r, split_no_sep by assumption. now exists [].
    - rewrite split_app_sep by assumption. eexists; reflexivity. }
  destruct Hsecond as [t ->]. cbn [List.length Nat.ltb Nat.leb nth]. rewrite Hint.
  unfold NumberParser._split_mantissa.
  replace (ip ++ "." ++ fp ++ more_m) with (ip ++ String "." (fp ++ more_m))
    by reflexivity.
  rewrite split_app_sep by assumption.
  assert (Hfrac : exists t', Str.split "." (fp ++ more_m) = fp :: t').
  { destruct Hm as [->|[j ->]].
    - rewrite append_empty_r, split_no_sep by assumption. now exists [].
    - rewrite split_app_sep by assumption. eexists; reflexivity. }
  destruct Hfrac as [t' ->]. reflexivity.
Qed.

(** X1: a literal [integer . fraction e exponent], its marker in either
    case, parses to its three parts, the text parts lowercased and the
    exponent read by [int]. *)
Theorem parse_well_formed :
  forall ip fp x marker n,
    Notions.no_point ip -> Notions.no_point fp ->
    Notions.no_marker ip -> Notions.no_marker fp -> Notions.no_marker x ->
    marker = "e"%char \/ marker = "E"%char ->
    PyInt.of_str (Str.lower x) = Returned n ->
    NumberParser.parse (ip ++ "." ++ fp ++ String marker x)
    = Returned (Str.lower ip, Str.lower fp, n).
Proof.
  intros ip fp x marker n Hip Hfp Hmip Hmfp Hmx Hmarker Hint.
  apply (parse_pieces _ (Str.lower ip) (Str.lower fp) (Str.lower x) "" "" n);
    try (rewrite contains_lower_point; assumption);
    try (apply no_marker_lower; assumption);
    try reflexivity; try (now left); try assumption.
  rewrite !lower_app. cbn [Str.lower append]. rewrite append_empty_r.
  destruct Hmarker as [-> | ->]; reflexivity.
Qed.

Lemma parse_well_formed_witness :
  NumberParser.parse ("1" ++ "." ++ "23" ++ String "E" "+10")
  = Returned (Str.lower "1", Str.lower "23", 10).
Proof.
  apply (parse_well_formed "1" "23" "+10" "E"%char 10); vm_compute; auto.
Defined.

(** X2: what follows a second point in the mantissa, and what follows a
    second exponent marker, is dropped without a trace: the literal
    parses as if it were not there. *)
Theorem parse_ignores_extra_parts :
  forall ip fp x more_m more_x n,
    Notions.no_point ip -> Notions.no_point fp ->
    Notions.no_marker ip -> Notions.no_marker fp ->
    Notions.no_marker more_m -> Notions.no_marker x ->
    PyInt.of_str (Str.lower x) = Returned n ->
    NumberParser.parse
      (ip ++ "." ++ fp ++ "." ++ more_m ++ "e" ++ x ++ "e" ++ more_x)
    = Returned (Str.lower ip, Str.lower fp, n).
Proof.
  intros ip fp x more_m more_x n Hip Hfp Hmip Hmfp Hmm Hmx Hint.
  assert (Hmore : Str.contains "e" (String "." (Str.lower more_m)) = false).
  { cbn [Str.contains]. now apply no_marker_lower. }
  apply (parse_pieces _ (Str.lower ip) (Str.lower fp) (Str.lower x)
           (String "." (Str.lower more_m)) (String "e" (Str.lower more_x)) n);
    try (rewrite contains_lower_point; assumption);
    try (apply no_marker_lower; assumption);
    try assumption;
    try (right; eexists; reflexivity).
  repeat (rewrite lower_app; cbn [Str.lower append]). reflexivity.
Qed.

Lemma parse_ignores_extra_parts_witness :
  NumberParser.parse
    ("1" ++ "." ++ "2" ++ "." ++ "3" ++ "e" ++ "4" ++ "e" ++ "5.6e7")
  = Returned (Str.lower "1", Str.lower "2", 4).
Proof.
  apply (parse_ignores_extra_parts "1" "2" "4" "3" "5.6e7" 4);
    vm_compute; auto.
Defined.

Lemma no_upper_contains :
  forall s ch, Notions.no_upper s = true -> Str.is_upper ch = true ->
    Str.contains ch s = false.
Proof.
  induction s as [|c s IH]; intros ch H Hup; [reflexivity|].
  cbn [Notions.no_upper Str.contains] in *.
  apply andb_true_iff in H. destruct H as [Hc Hs]. rewrite (IH ch Hs Hup).
  destruct (Ascii.eqb_spec c ch) as [->|_]; [|reflexivity].
  rewrite Hup in Hc. discriminate.
Qed.

Lemma contains_no_upper :
  forall s, (forall ch, Str.is_upper ch = true -> Str.contains ch s = false) ->
    Notions.no_upper s = true.
Proof.
  induction s as [|c s IH]; intros H; [reflexivity|].
  cbn [Notions.no_upper]. apply andb_true_iff. split.
  - destruct (Str.is_upper c) eqn:Hc; [|reflexivity].
    specialize (H c Hc). cbn [Str.contains] in H. now rewrite Ascii.eqb_refl in H.
  - apply IH. intros ch Hch. specialize (H ch Hch). cbn [Str.contains] in H.
    now apply orb_false_iff in H.
Qed.

(** X3: whatever the literal, the integer and fractional parts the
    parser returns hold no point, no exponent marker and no upper-case
    letter. *)
Theorem parse_parts_are_clean :
  forall num_str integer_part fractional_part exponent,
    NumberParser.parse num_str
      = Returned (integer_part, fractional_part, exponent) ->
    (Notions.no_point integer_part /\ Notions.no_point fractional_part) /\
    (Notions.no_marker integer_part /\ Notions.no_marker fractional_part) /\
    (Notions.no_upper integer_part = true /\ Notions.no_upper fractional_part = true).
Proof.
  intros num_str ip fp e.
  unfold NumberParser.parse, NumberParser._split_exponent.
  set (parts := Str.split "e" (Str.lower num_str)).
  destruct (if (1 <? List.length parts)%nat then _ else _); [|discriminate].
  unfold NumberParser._split_mantissa.
  set (m := nth 0 parts "").
  set (mparts := Str.split "." m).
  intros H. injection H as Hip Hfp _.
  assert (Hm : forall ch, Str.contains ch m = true ->
                          Str.contains ch (Str.lower num_str) = true
                          /\ Ascii.eqb ch "e" = false).
  { intros ch Hch. destruct (nth_piece parts 0) as [E|Hin];
      fold m in E || fold m in Hin.
    - rewrite E in Hch. discriminate.
    - split; [now apply (split_piece_chars "e" ch _ m)|].
      destruct (Ascii.eqb_spec ch "e") as [->|]; [|reflexivity].
      rewrite (split_piece_no_sep "e" _ m Hin) in Hch. discriminate. }
  assert (Hpiece : forall piece,
             piece = "" \/ In piece mparts ->
             Notions.no_point piece /\ Notions.no_marker piece
             /\ Notions.no_upper piece = true).
  { intros piece [->|Hin]; [repeat split; reflexivity|].
    assert (Hch : forall ch, Ascii.eqb ch "e" = true \/ Str.is_upper ch = true ->
                             Str.contains ch piece = false).
    { intros ch Hch. destruct (Str.contains ch piece) eqn:Hc; [|reflexivity].
      apply (split_piece_chars "." ch m piece Hin) in Hc.
      destruct (Hm ch Hc) as [Hlow Hne]. destruct Hch as [He|Hup].
      - congruence.
      - rewrite (lower_no_upper ch num_str Hup) in Hlow. discriminate. }
    split; [exact (split_piece_no_sep "." m piece Hin)|]. split.
    - split; apply Hch; [now left | now right].
    - apply contains_no_upper. intros ch Hup. apply Hch. now right. }
  assert (Hip' : ip = "" \/ In ip mparts).
  { rewrite <- Hip. apply nth_piece. }
  assert (Hfp' : fp = "" \/ In fp mparts).
  { rewrite <- Hfp. destruct (1 <? List.length mparts)%nat; [|now left].
    apply nth_piece. }
  destruct (Hpiece ip Hip') as (Hp1 & Hm1 & Hu1).
  destruct (Hpiece fp Hfp') as (Hp2 & Hm2 & Hu2).
  exact (conj (conj Hp1 Hp2) (conj (conj Hm1 Hm2) (conj Hu1 Hu2))).
Qed.

Lemma parse_parts_are_clean_witness :
  (Notions.no_point "-1_0" /\ Notions.no_point "5x") /\
  (Notions.no_marker "-1_0" /\ Notions.no_marker "5x") /\
  (Notions.no_upper "-1_0" = true /\ Notions.no_upper "5x" = true).
Proof.
  apply (parse_parts_are_clean "-1_0.5X.7E3E9" "-1_0" "5x" 3).
  vm_compute. reflexivity.
Defined.

(** ** The trimmer, on any text *)

Lemma rstrip_by_idempotent :
  forall f s, Str.rstrip_by f (Str.rstrip_by f s) = Str.rstrip_by f s.
Proof.
  intros f. induction s as [|c s IH]; [reflexivity|]. cbn [Str.rstrip_by].
  destruct (Str.rstrip_by f s) as [|a r] eqn:E.
  - destruct (f c) eqn:Ec; [reflexivity|]. cbn [Str.rstrip_by]. now rewrite Ec.
  - cbn [Str.rstrip_by] in *. rewrite IH. reflexivity.
Qed.

(** Text that ends with a given character is something followed by it. *)
Lemma endswith_char_inv :
  forall ch s, Str.endswith s (String ch "") = true ->
    exists y, s = y ++ String ch "".
Proof.
  intros ch. induction s as [|c s IH]; intros H; [discriminate|].
  cbn [Str.endswith String.eqb] in H. apply orb_true_iff in H.
  destruct H as [H|H].
  - destruct (Ascii.eqb_spec c ch) as [->|]; [|discriminate].
    destruct s; [|discriminate]. now exists "".
  - destruct (IH H) as [y ->]. now exists (String c y).
Qed.

(** How the trimmer ends, in its two cases. *)
Lemma _remove_trailing_zeros_cases :
  forall s,
    (Str.endswith (Str.rstrip "0" s) "." = false /\
     NumberGenerator._remove_trailing_zeros s = Str.rstrip "0" s) \/
    (exists y, Str.rstrip "0" s = y ++ "." /\
               NumberGenerator._remove_trailing_zeros s = y ++ ".0").
Proof.
  intros s. unfold NumberGenerator._remove_trailing_zeros.
  destruct (Str.endswith (Str.rstrip "0" s) ".") eqn:E; cbn [negb].
  - right. destruct (endswith_char_inv _ _ E) as [y Hy]. exists y.
    split; [assumption|]. rewrite Hy, append_assoc. reflexivity.
  - left. split; reflexivity.
Qed.

(** X4: trimming is idempotent: an expected string, or any text, that has
    been through the trimmer comes out of it unchanged. *)
Theorem _remove_trailing_zeros_idempotent :
  forall s,
    NumberGenerator._remove_trailing_zeros (NumberGenerator._remove_trailing_zeros s)
    = NumberGenerator._remove_trailing_zeros s.
Proof.
  intros s. destruct (_remove_trailing_zeros_cases s) as [[E ->]|[y [Hy ->]]].
  - unfold NumberGenerator._remove_trailing_zeros, Str.rstrip.
    rewrite rstrip_by_idempotent. fold (Str.rstrip "0" s). now rewrite E.
  - unfold NumberGenerator._remove_trailing_zeros, Str.rstrip.
    change (y ++ ".0") with (y ++ String "." "0").
    rewrite rstrip_by_app_keep by reflexivity. cbn [Str.rstrip_by Ascii.eqb].
    change (String "." "") with ".". rewrite endswith_app_self. cbn [negb].
    now rewrite append_assoc.
Qed.

(** X5: whatever it is given, the trimmer never returns text that ends
    with the point, and text it returns ends with a zero only as ".0". *)
Theorem _remove_trailing_zeros_ending :
  forall s,
    Str.endswith (NumberGenerator._remove_trailing_zeros s) "." = false /\
    (Str.endswith (NumberGenerator._remove_trailing_zeros s) "0" = true ->
     Str.endswith (NumberGenerator._remove_trailing_zeros s) ".0" = true).
Proof.
  intros s. destruct (_remove_trailing_zeros_cases s) as [[E ->]|[y [Hy ->]]].
  - split; [assumption|]. intros H. now rewrite rstrip_endswith in H.
  - split.
    + rewrite endswith_app_nonempty by discriminate. reflexivity.
    + intros _. apply endswith_app_self.
Qed.

Lemma _remove_trailing_zeros_ending_witness :
  Str.endswith (NumberGenerator._remove_trailing_zeros "5.000") "." = false /\
  (Str.endswith (NumberGenerator._remove_trailing_zeros "5.000") "0" = true ->
   Str.endswith (NumberGenerator._remove_trailing_zeros "5.000") ".0" = true).
Proof.
  exact (_remove_trailing_zeros_ending "5.000").
Defined.

(** ** The case generator: what it refuses and what it lets through *)

Lemma pow10_returned :
  forall ctx n t, PyDecimal.pow10 ctx n = Returned t -> n <= PyDecimal.Emax.
Proof.
  intros ctx n t. unfold PyDecimal.pow10.
  destruct (Z.ltb_spec PyDecimal.Emax n); [discriminate | lia].
Qed.

(** X6: a record comes out only for a precision that is not negative,
    an exponent of at most 999999 and a working precision
    [precision + max(exponent, 0) + 1] within the setter's range; it
    carries the literal, the precision, the radix and the base it was
    given. *)
Theorem generate_returned_bounds :
  forall literal p r b verbose w tc w',
    TestCaseGenerator.generate literal p r b verbose w = (Returned tc, w') ->
    (exists integer_part fractional_part exponent,
        NumberParser.parse literal
          = Returned (integer_part, fractional_part, exponent) /\
        exponent <= PyDecimal.Emax /\
        p + Z.max exponent 0 + 1 <= PyDecimal.MAX_PREC) /\
    0 <= p /\
    (num_str tc = literal /\ precision tc = p /\ radix tc = r /\ base tc = b).
Proof.
  intros literal p r b verbose w tc w'.
  rewrite generate_unfold.
  destruct (NumberParser.parse literal) as [[[ip fp] e]|x]; [|discriminate].
  rewrite _calculate_number_world. cbn [fst].
  destruct (PyDecimal.of_str (ip ++ "." ++ fp)) as [m|x]; [|discriminate].
  destruct (PyDecimal.pow10 (getcontext w) e) as [t|x] eqn:Hpow; [|discriminate].
  destruct (PyDecimal.mul (getcontext w) m t) as [number|x]; [|discriminate].
  cbv zeta.
  destruct ((1 <=? p + Z.max e 0 + 1) && (p + Z.max e 0 + 1 <=? PyDecimal.MAX_PREC))
    eqn:Hrange; [|discriminate].
  destruct (p <? 0) eqn:Hneg; [discriminate|].
  intros H. injection H as <- _.
  apply andb_true_iff in Hrange. destruct Hrange as [_ Hmax].
  apply Z.leb_le in Hmax. apply Z.ltb_ge in Hneg. apply pow10_returned in Hpow.
  split; [exists ip, fp, e; auto|]. split; [assumption|]. repeat split.
Qed.

Lemma generate_returned_bounds_witness :
  (exists integer_part fractional_part exponent,
      NumberParser.parse "1.23e10"
        = Returned (integer_part, fractional_part, exponent) /\
      exponent <= PyDecimal.Emax /\
      15 + Z.max exponent 0 + 1 <= PyDecimal.MAX_PREC) /\
  0 <= 15 /\
  (num_str (mkTestCase "1.23e10" 15 "12300000000.0" (Some 10) (Some 2)) = "1.23e10" /\
   precision (mkTestCase "1.23e10" 15 "12300000000.0" (Some 10) (Some 2)) = 15 /\
   radix (mkTestCase "1.23e10" 15 "12300000000.0" (Some 10) (Some 2)) = Some 10 /\
   base (mkTestCase "1.23e10" 15 "12300000000.0" (Some 10) (Some 2)) = Some 2).
Proof.
  apply (generate_returned_bounds "1.23e10" 15 (Some 10) (Some 2) false
           initial_world _ (mkWorld (PyDecimal.mkContext 26) [])).
  vm_compute. reflexivity.
Defined.

(** X7: an exponent above 999999 on a mantissa the constructor accepts
    raises [Overflow], whatever the working precision, and leaves the
    world as it was. *)
Theorem generate_overflow :
  forall literal p r b verbose w integer_part fractional_part exponent m,
    NumberParser.parse literal
      = Returned (integer_part, fractional_part, exponent) ->
    PyDecimal.of_str (integer_part ++ "." ++ fractional_part) = Returned m ->
    PyDecimal.Emax < exponent ->
    TestCaseGenerator.generate literal p r b verbose w = (Raised Overflow, w).
Proof.
  intros literal p r b verbose w ip fp e m Hparse Hm He.
  rewrite generate_unfold, Hparse, _calculate_number_world, Hm.
  unfold PyDecimal.pow10.
  destruct (Z.ltb_spec PyDecimal.Emax e); [reflexivity | lia].
Qed.

Lemma generate_overflow_witness :
  TestCaseGenerator.generate "1e1000000" 2 None None false initial_world
  = (Raised Overflow, initial_world).
Proof.
  apply (generate_overflow "1e1000000" 2 None None false initial_world
           "1" "" 1000000 (PyDecimal.mkDecimal false 1 0));
    vm_compute; reflexivity.
Defined.

Lemma round_half_even_0 : forall k, PyDecimal.round_half_even 0 k = 0%N.
Proof.
  intros k. unfold PyDecimal.round_half_even.
  destruct (k =? 0)%N; [reflexivity|].
  rewrite N.Div0.div_0_l, N.Div0.mod_0_l.
  assert (Hhalf : (5 * 10 ^ (k - 1) <> 0)%N).
  { apply N.neq_mul_0. split; [discriminate | apply N.pow_nonzero; discriminate]. }
  destruct (N.ltb_spec (5 * 10 ^ (k - 1)) 0) as [H|_]; [lia|].
  destruct (N.eqb_spec 0 (5 * 10 ^ (k - 1))) as [H|_]; [congruence | reflexivity].
Qed.

Lemma repeat_snoc :
  forall c n, Str.repeat c n ++ String c "" = Str.repeat c (S n).
Proof. induction n as [|n IH]; simpl in *; [reflexivity | now rewrite IH]. Qed.

Lemma rstrip_repeat :
  forall c n, Str.rstrip c (Str.repeat c n) = "".
Proof.
  intros c n. unfold Str.rstrip. induction n as [|n IH]; simpl; [reflexivity|].
  now rewrite IH, Ascii.eqb_refl.
Qed.

(** The rendering of a zero, whatever its exponent. *)
Lemma format_f_zero :
  forall d p,
    PyDecimal.coeff d = 0%N -> 1 <= p ->
    PyDecimal.format_f d p
    = (if PyDecimal.sign d then "-" else "") ++ "0" ++ "."
      ++ Str.repeat "0" (Z.to_nat p).
Proof.
  intros d p Hc Hp. unfold PyDecimal.format_f.
  assert (Hr : PyDecimal.coeff (PyDecimal.rescale d (- p)) = 0%N).
  { unfold PyDecimal.rescale. rewrite Hc.
    destruct (- p <=? PyDecimal.exp d); cbn [PyDecimal.coeff];
      [reflexivity | apply round_half_even_0]. }
  rewrite Hr. change (Str.of_N 0) with "0". cbn [String.length].
  destruct (Z.to_nat p) as [|w] eqn:Hw; [lia|].
  destruct w as [|w].
  - reflexivity.
  - replace (1 <? S (S w))%nat with true by reflexivity.
    replace (S (S w) - 1)%nat with (S w) by lia.
    change (Str.repeat "0" (S w) ++ "0") with (Str.repeat "0" (S w) ++ String "0" "").
    rewrite repeat_snoc. reflexivity.
Qed.

(** X8: an exponent below [Etiny] of the working context makes the
    product underflow to zero without any signal: the record comes out
    with the expected string "0.0", or "-0.0" for a negative mantissa,
    whatever the digits of the literal. *)
Theorem generate_underflows_to_zero :
  forall literal p r b verbose w integer_part fractional_part exponent m,
    NumberParser.parse literal
      = Returned (integer_part, fractional_part, exponent) ->
    PyDecimal.of_str (integer_part ++ "." ++ fractional_part) = Returned m ->
    1 <= PyDecimal.prec (getcontext w) ->
    exponent < PyDecimal.Etiny (getcontext w) ->
    1 <= p < PyDecimal.MAX_PREC ->
    TestCaseGenerator.generate literal p r b verbose w
    = (Returned
         (mkTestCase literal p
            ((if PyDecimal.sign m then "-" else "") ++ "0.0") r b),
       mkWorld (PyDecimal.mkContext (p + 1)) (stdout w)).
Proof.
  intros literal p r b verbose w ip fp e m Hparse Hm Hprec He Hp.
  rewrite generate_unfold, Hparse, _calculate_number_world, Hm.
  assert (Hneg : e < 0).
  { unfold PyDecimal.Etiny, PyDecimal.Emin in He. lia. }
  assert (Hpow : PyDecimal.pow10 (getcontext w) e
                 = Returned (PyDecimal.mkDecimal false 0
                               (PyDecimal.Etiny (getcontext w)))).
  { unfold PyDecimal.pow10.
    destruct (Z.ltb_spec PyDecimal.Emax e) as [H|_];
      [unfold PyDecimal.Emax in H; lia|].
    destruct (Z.leb_spec 0 e) as [H|_]; [lia|].
    destruct (Z.leb_spec (PyDecimal.Etiny (getcontext w)) e) as [H|_]; [lia|].
    reflexivity. }
  rewrite Hpow. unfold PyDecimal.mul, PyDecimal._fix.
  cbn [PyDecimal.sign PyDecimal.coeff PyDecimal.exp].
  rewrite N.mul_0_r, xorb_false_r. cbn [N.eqb fst]. cbv zeta.
  replace (p + Z.max e 0 + 1) with (p + 1) by lia.
  replace (1 <=? p + 1) with true by (symmetry; apply Z.leb_le; lia).
  replace (p + 1 <=? PyDecimal.MAX_PREC) with true by (symmetry; apply Z.leb_le; lia).
  replace (p <? 0) with false by (symmetry; apply Z.ltb_ge; lia).
  cbn [andb]. rewrite format_f_zero by (reflexivity || lia).
  cbn [PyDecimal.sign].
  rewrite <- (append_assoc _ "0" ("." ++ _)).
  rewrite _remove_trailing_zeros_shape by apply all_digits_repeat_0.
  rewrite rstrip_repeat. cbn [String.eqb]. now rewrite append_assoc.
Qed.

Lemma generate_underflows_to_zero_witness :
  TestCaseGenerator.generate "-7.5e-1000027" 3 None None false initial_world
  = (Returned
       (mkTestCase "-7.5e-1000027" 3
          ((if PyDecimal.sign (PyDecimal.mkDecimal true 75 (-1)) then "-" else "")
           ++ "0.0") None None),
     mkWorld (PyDecimal.mkContext (3 + 1)) (stdout initial_world)).
Proof.
  apply (generate_underflows_to_zero "-7.5e-1000027" 3 None None false
           initial_world "-7" "5" (-1000027));
    vm_compute; repeat split; first [reflexivity | discriminate].
Defined.

(** X9: the radix, the base and the verbosity never reach the
    computation: with others in their place the same expected string
    comes out, the same exception is raised, and the same world is
    left. *)
Theorem generate_ignores_radix_and_base :
  forall literal p r b verbose r' b' verbose' w,
    TestCaseGenerator.generate literal p r' b' verbose' w
    = (match fst (TestCaseGenerator.generate literal p r b verbose w) with
       | Returned tc =>
           Returned (mkTestCase (num_str tc) (precision tc) (expected tc) r' b')
       | Raised e => Raised e
       end,
       snd (TestCaseGenerator.generate literal p r b verbose w)).
Proof.
  intros literal p r b verbose r' b' verbose' w.
  rewrite !generate_unfold.
  destruct (NumberParser.parse literal) as [[[ip fp] e]|x]; [|reflexivity].
  destruct (fst (TestCaseGenerator._calculate_number ip fp e w)) as [number|x];
    [|reflexivity].
  cbv zeta.
  destruct ((1 <=? p + Z.max e 0 + 1) && (p + Z.max e 0 + 1 <=? PyDecimal.MAX_PREC));
    [|reflexivity].
  destruct (p <? 0); reflexivity.
Qed.

(** ** The case generator: the sign of the literal *)

Lemma digit_char_facts :
  forall c, Str.is_digit c = true ->
    Str.lower_char c = c /\ Ascii.eqb c "e" = false /\ Ascii.eqb c "." = false /\
    PyDecimal.is_space c = false /\ Ascii.eqb c "_" = false /\
    Ascii.eqb c "-" = false /\ Ascii.eqb c "+" = false.
Proof.
  intros c. destruct c as [[] [] [] [] [] [] [] []]; vm_compute; intros H;
    try discriminate H; repeat split.
Qed.

Lemma rstrip_by_cons_keep :
  forall f c r, f c = false ->
    Str.rstrip_by f (String c r) = String c (Str.rstrip_by f r).
Proof.
  intros f c r Hc. cbn [Str.rstrip_by]. rewrite Hc.
  destruct (Str.rstrip_by f r); reflexivity.
Qed.

(** The parser puts a leading minus sign on the integer part. *)
Lemma parse_minus :
  forall s,
    NumberParser.parse (String "-" s)
    = match NumberParser.parse s with
      | Returned (ip, fp, e) => Returned (String "-" ip, fp, e)
      | Raised x => Raised x
      end.
Proof.
  intros s. unfold NumberParser.parse, NumberParser._split_exponent.
  cbn [Str.lower]. change (Str.lower_char "-") with "-"%char.
  cbn [Str.split]. change (Ascii.eqb "-" "e") with false. cbv iota.
  destruct (Str.split "e" (Str.lower s)) as [|h tl] eqn:E.
  { now apply split_not_nil in E. }
  cbn [List.length nth].
  destruct (if (1 <? S (List.length tl))%nat then _ else _) as [e|x]; [|reflexivity].
  unfold NumberParser._split_mantissa.
  cbn [Str.split]. change (Ascii.eqb "-" ".") with false. cbv iota.
  destruct (Str.split "." h) as [|h' tl'] eqn:E'.
  { now apply split_not_nil in E'. }
  reflexivity.
Qed.

(** An unsigned literal gives an unsigned mantissa. *)
Lemma parse_unsigned :
  forall s ip fp e,
    Notions.unsigned s ->
    NumberParser.parse s = Returned (ip, fp, e) ->
    Notions.unsigned (ip ++ "." ++ fp).
Proof.
  intros [|c s] ip fp e Hu; [contradiction|].
  unfold NumberParser.parse, NumberParser._split_exponent.
  cbn [Str.lower Notions.unsigned] in *.
  assert (Hc : Str.lower_char c = c /\ Ascii.eqb c "e" = false).
  { destruct Hu as [Hd| ->]; [|split; reflexivity].
    destruct (digit_char_facts c Hd) as (? & ? & _). now split. }
  destruct Hc as [-> Hce]. cbn [Str.split]. rewrite Hce.
  destruct (Str.split "e" (Str.lower s)) as [|h tl] eqn:E.
  { now apply split_not_nil in E. }
  cbn [List.length nth].
  destruct (if (1 <? S (List.length tl))%nat then _ else _) as [e'|x]; [|discriminate].
  unfold NumberParser._split_mantissa. cbn [Str.split].
  destruct (Ascii.eqb_spec c ".") as [->|Hne].
  - intros H. injection H as <- _ _. cbn. now right.
  - destruct (Str.split "." h) as [|h' tl'] eqn:E'.
    { now apply split_not_nil in E'. }
    intros H. injection H as <- _ _. cbn.
    destruct Hu as [Hd| ->]; [now left | contradiction].
Qed.

(** The constructor on an unsigned text with a minus sign before it. *)
Lemma of_str_minus :
  forall x,
    Notions.unsigned x ->
    PyDecimal.of_str (String "-" x)
    = match PyDecimal.of_str x with
      | Returned d => Returned (Notions.with_sign true d)
      | Raised e => Raised e
      end /\
    (forall d, PyDecimal.of_str x = Returned d -> PyDecimal.sign d = false).
Proof.
  intros [|c rest] Hu; [contradiction|]. cbn [Notions.unsigned] in Hu.
  assert (Hc : PyDecimal.is_space c = false /\ Ascii.eqb c "_" = false /\
               Ascii.eqb c "-" = false /\ Ascii.eqb c "+" = false).
  { destruct Hu as [Hd| ->]; [|repeat split; reflexivity].
    destruct (digit_char_facts c Hd) as (_ & _ & _ & ? & ? & ? & ?).
    repeat split; assumption. }
  destruct Hc as (Hsp & Hus & Hmi & Hpl).
  unfold PyDecimal.of_str, Str.strip_by.
  rewrite (rstrip_by_cons_keep _ "-"%char) by reflexivity.
  rewrite (rstrip_by_cons_keep _ c) by assumption.
  cbn [Str.lstrip_by]. change (PyDecimal.is_space "-") with false. rewrite Hsp.
  cbv iota. cbn [Str.remove]. change (Ascii.eqb "-" "_") with false. rewrite Hus.
  cbv iota. cbn [PyInt.signed]. rewrite Ascii.eqb_refl, Hmi, Hpl. cbv iota.
  set (body := String c (Str.remove "_" (Str.rstrip_by PyDecimal.is_space rest))).
  destruct (PyDecimal.span_digits 0 0 body) as [[ip ni] r].
  destruct r as [|c1 r1].
  - destruct (0 <? ni)%nat; split; try reflexivity; intros d H;
      inversion H; reflexivity.
  - destruct (Ascii.eqb c1 ".");
      [|split; [reflexivity | intros d H; discriminate H]].
    destruct (PyDecimal.span_digits ip 0 r1) as [[co nf] r2].
    destruct r2; [|split; [reflexivity | intros d H; discriminate H]].
    destruct (0 <? ni + nf)%nat; split; try reflexivity; intros d H;
      inversion H; reflexivity.
Qed.

Lemma _fix_with_sign :
  forall ctx s d,
    PyDecimal._fix ctx (Notions.with_sign s d)
    = match PyDecimal._fix ctx d with
      | Returned d' => Returned (Notions.with_sign s d')
      | Raised e => Raised e
      end.
Proof.
  intros ctx s d. unfold PyDecimal._fix, Notions.with_sign.
  cbn [PyDecimal.sign PyDecimal.coeff PyDecimal.exp].
  destruct (PyDecimal.coeff d =? 0)%N; [reflexivity|].
  destruct (PyDecimal.Etop ctx <? _); [reflexivity|]. cbv zeta.
  destruct (PyDecimal.exp d <? _); [|reflexivity].
  destruct (PyDecimal.prec ctx <? _);
    destruct (PyDecimal.Etop ctx <? _); reflexivity.
Qed.

Lemma _fix_sign :
  forall ctx d d', PyDecimal._fix ctx d = Returned d' ->
    PyDecimal.sign d' = PyDecimal.sign d.
Proof.
  intros ctx d d'. unfold PyDecimal._fix.
  destruct (PyDecimal.coeff d =? 0)%N; [intros H; now inversion H|].
  destruct (PyDecimal.Etop ctx <? _); [discriminate|]. cbv zeta.
  destruct (PyDecimal.exp d <? _); [|intros H; now inversion H].
  destruct (PyDecimal.prec ctx <? _);
    destruct (PyDecimal.Etop ctx <? _); try discriminate;
    intros H; now inversion H.
Qed.

Lemma pow10_sign :
  forall ctx n t, PyDecimal.pow10 ctx n = Returned t -> PyDecimal.sign t = false.
Proof.
  intros ctx n t. unfold PyDecimal.pow10.
  destruct (PyDecimal.Emax <? n); [discriminate|].
  destruct (0 <=? n); [intros H; now inversion H|].
  destruct (PyDecimal.Etiny ctx <=? n); intros H; now inversion H.
Qed.

Lemma format_f_with_sign :
  forall s d p,
    PyDecimal.format_f (Notions.with_sign s d) p
    = (if s then "-" else "") ++ PyDecimal.format_f (Notions.with_sign false d) p.
Proof.
  intros s d p. unfold PyDecimal.format_f, Notions.with_sign, PyDecimal.rescale.
  cbn [PyDecimal.sign PyDecimal.coeff PyDecimal.exp].
  destruct (- p <=? PyDecimal.exp d); cbn [PyDecimal.coeff];
    destruct (_ <? _)%nat; reflexivity.
Qed.

Lemma _remove_trailing_zeros_minus :
  forall x,
    NumberGenerator._remove_trailing_zeros (String "-" x)
    = String "-" (NumberGenerator._remove_trailing_zeros x).
Proof.
  intros x. unfold NumberGenerator._remove_trailing_zeros, Str.rstrip.
  rewrite rstrip_by_cons_keep by reflexivity.
  cbn [Str.endswith String.eqb]. change (Ascii.eqb "-" ".") with false.
  cbv iota. cbn [orb].
  destruct (Str.endswith (Str.rstrip_by (Ascii.eqb "0") x) "."); reflexivity.
Qed.

(** X10: the generator is odd in its literal.  Putting a minus sign
    before an unsigned literal that gives a record gives the same
    record with a minus sign before the expected string (so "0.0"
    becomes "-0.0"), and leaves the same world. *)
Theorem generate_negated_literal :
  forall literal p r b verbose w tc w',
    Notions.unsigned literal ->
    TestCaseGenerator.generate literal p r b verbose w = (Returned tc, w') ->
    TestCaseGenerator.generate (String "-" literal) p r b verbose w
    = (Returned (mkTestCase (String "-" literal) p (String "-" (expected tc)) r b),
       w').
Proof.
  intros literal p r b verbose w tc w' Hu.
  rewrite !generate_unfold, parse_minus.
  destruct (NumberParser.parse literal) as [[[ip fp] e]|x] eqn:Hparse;
    [|discriminate].
  pose proof (parse_unsigned literal ip fp e Hu Hparse) as Hum.
  rewrite !_calculate_number_world. cbn [fst].
  change (String "-" ip ++ "." ++ fp) with (String "-" (ip ++ "." ++ fp)).
  destruct (of_str_minus _ Hum) as [-> Hsign].
  destruct (PyDecimal.of_str (ip ++ "." ++ fp)) as [m|x]; [|discriminate].
  specialize (Hsign m eq_refl).
  destruct (PyDecimal.pow10 (getcontext w) e) as [t|x] eqn:Hpow; [|discriminate].
  apply pow10_sign in Hpow.
  unfold PyDecimal.mul. cbn [Notions.with_sign PyDecimal.sign PyDecimal.coeff PyDecimal.exp].
  rewrite Hsign, Hpow. cbn [xorb].
  set (product := PyDecimal.mkDecimal false _ _).
  change (PyDecimal.mkDecimal true (PyDecimal.coeff m * PyDecimal.coeff t)
            (PyDecimal.exp m + PyDecimal.exp t))
    with (Notions.with_sign true product).
  rewrite _fix_with_sign.
  destruct (PyDecimal._fix (getcontext w) product) as [number|x] eqn:Hfix;
    [|discriminate].
  apply _fix_sign in Hfix. cbv zeta.
  destruct ((1 <=? p + Z.max e 0 + 1) && (p + Z.max e 0 + 1 <=? PyDecimal.MAX_PREC));
    [|discriminate].
  destruct (p <? 0); [discriminate|].
  intros H. injection H as <- <-. cbn [expected].
  rewrite format_f_with_sign.
  replace (Notions.with_sign false number) with number
    by (destruct number; cbn in Hfix; subst; reflexivity).
  cbn [append]. now rewrite _remove_trailing_zeros_minus.
Qed.

Lemma generate_negated_literal_witness :
  TestCaseGenerator.generate (String "-" "1.7976931348623157e308") 308 None None
    false initial_world
  = (Returned
       (mkTestCase (String "-" "1.7976931348623157e308") 308
          (String "-"
             (expected
                (mkTestCase "1.7976931348623157e308" 308
                   ("17976931348623157" ++ Str.repeat "0" 292 ++ ".0") None None)))
          None None),
     mkWorld (PyDecimal.mkContext 617) []).
Proof.
  apply (generate_negated_literal "1.7976931348623157e308" 308 None None false
           initial_world).
  - left. reflexivity.
  - vm_compute. reflexivity.
Defined.

(** ** The case generator: the shape of what it returns *)

Lemma length_rstrip_by :
  forall f s, (String.length (Str.rstrip_by f s) <= String.length s)%nat.
Proof.
  intros f. induction s as [|c s IH]; cbn [Str.rstrip_by String.length]; [lia|].
  destruct (Str.rstrip_by f s).
  - destruct (f c); cbn [String.length]; lia.
  - cbn [String.length] in *. lia.
Qed.

(** X11: every record generated at a precision of one or more carries
    an expected string of the form sign, integer digits, point,
    fractional digits: at least one and at most [precision] fractional
    digits, the last of them not a zero unless the fraction is the
    single digit "0". *)
Theorem generate_fixed_point_form :
  forall literal p r b verbose w tc w',
    1 <= p ->
    TestCaseGenerator.generate literal p r b verbose w = (Returned tc, w') ->
    exists sgn i f,
      expected tc = sgn ++ i ++ "." ++ f /\
      (sgn = "" \/ sgn = "-") /\
      (Spec.all_digits i = true /\ i <> "") /\
      (Spec.all_digits f = true /\
       (1 <= String.length f <= Z.to_nat p)%nat) /\
      (f = "0" \/ Str.endswith f "0" = false).
Proof.
  intros literal p r b verbose w tc w' Hp H.
  apply generate_returned in H.
  destruct H as (ip & fp & e & number & _ & _ & _ & -> & _). cbn [expected].
  destruct (format_f_shape number p Hp) as (i & f0 & Hfmt & Hi & Hine & Hf0 & Hlen).
  exists (if PyDecimal.sign number then "-" else ""), i,
         (if String.eqb (Str.rstrip "0" f0) "" then "0" else Str.rstrip "0" f0).
  split.
  { rewrite Hfmt. rewrite <- (append_assoc _ i ("." ++ f0)).
    rewrite (_remove_trailing_zeros_shape _ f0 Hf0). apply append_assoc. }
  split; [destruct (PyDecimal.sign number); auto|].
  split; [split; assumption|].
  destruct (String.eqb_spec (Str.rstrip "0" f0) "") as [E|NE].
  - split; [split; [reflexivity | cbn; lia] | now left].
  - split; [|right; apply rstrip_endswith].
    split; [now apply all_digits_rstrip|].
    pose proof (length_rstrip_by (Ascii.eqb "0") f0) as Hle.
    fold (Str.rstrip "0" f0) in Hle.
    destruct (Str.rstrip "0" f0); [contradiction | cbn [String.length] in *; lia].
Qed.

Lemma generate_fixed_point_form_witness :
  exists sgn i f,
    expected (mkTestCase "-0.123456789e-5" 10 "-0.0000012346" None None)
      = sgn ++ i ++ "." ++ f /\
    (sgn = "" \/ sgn = "-") /\
    (Spec.all_digits i = true /\ i <> "") /\
    (Spec.all_digits f = true /\
     (1 <= String.length f <= Z.to_nat 10)%nat) /\
    (f = "0" \/ Str.endswith f "0" = false).
Proof.
  apply (generate_fixed_point_form "-0.123456789e-5" 10 None None false
           initial_world _ (mkWorld (PyDecimal.mkContext 11) [])).
  - lia.
  - vm_compute. reflexivity.
Defined.

(** ** Digits of a coefficient *)

Lemma string_of_uint_revapp :
  forall l acc,
    NilEmpty.string_of_uint (Decimal.revapp l acc)
    = NilEmpty.string_of_uint (Decimal.revapp l Decimal.Nil)
      ++ NilEmpty.string_of_uint acc.
Proof.
  induction l; intros acc; cbn [Decimal.revapp];
    try (rewrite IHl; symmetry; rewrite IHl; cbn [NilEmpty.string_of_uint];
         rewrite append_assoc; reflexivity).
  reflexivity.
Qed.

Lemma of_N_pos :
  forall p, Str.of_N (N.pos p) = NilEmpty.string_of_uint (Pos.to_uint p).
Proof.
  intros p. unfold Str.of_N, NilZero.string_of_uint. cbn [N.to_uint].
  pose proof (DecimalPos.Unsigned.to_uint_nonnil p) as H.
  destruct (Pos.to_uint p); [contradiction | reflexivity ..].
Qed.

(** Ten times a positive number is written with one more zero. *)
Lemma of_N_tenfold :
  forall p, Str.of_N (10 * N.pos p) = Str.of_N (N.pos p) ++ "0".
Proof.
  intros p. change (10 * N.pos p)%N with (N.pos (10 * p)). rewrite !of_N_pos.
  unfold Pos.to_uint, Decimal.rev.
  change (Pos.to_little_uint (10 * p))
    with (DecimalPos.Unsigned.to_lu (10 * N.pos p)).
  rewrite DecimalPos.Unsigned.to_ldec_tenfold. cbn [Decimal.revapp].
  rewrite string_of_uint_revapp. reflexivity.
Qed.

Lemma of_N_mul_pow10 :
  forall c k, c <> 0%N ->
    Str.of_N (c * 10 ^ k) = Str.of_N c ++ Str.repeat "0" (N.to_nat k).
Proof.
  intros c k Hc. induction k as [|k IH] using N.peano_ind.
  - rewrite N.pow_0_r, N.mul_1_r. cbn. now rewrite append_empty_r.
  - rewrite N.pow_succ_r', N2Nat.inj_succ.
    replace (c * (10 * 10 ^ k))%N with (10 * (c * 10 ^ k))%N by lia.
    destruct (c * 10 ^ k)%N as [|q] eqn:E.
    + apply N.eq_mul_0 in E. destruct E as [E|E]; [contradiction|].
      now apply N.pow_nonzero in E.
    + rewrite of_N_tenfold, IH, append_assoc.
      change "0" with (String "0" ""). now rewrite repeat_snoc.
Qed.

Lemma ndigits_mul_pow10 :
  forall c k, c <> 0%N ->
    PyDecimal.ndigits (c * 10 ^ k) = PyDecimal.ndigits c + Z.of_N k.
Proof.
  intros c k Hc. unfold PyDecimal.ndigits.
  rewrite of_N_mul_pow10, length_append, length_repeat by assumption. lia.
Qed.

(** Rounding away zeros loses nothing. *)
Lemma round_half_even_exact :
  forall c k j, (j <= k)%N ->
    PyDecimal.round_half_even (c * 10 ^ k) j = (c * 10 ^ (k - j))%N.
Proof.
  intros c k j Hj. unfold PyDecimal.round_half_even.
  destruct (N.eqb_spec j 0) as [->|Hj0]; [now rewrite N.sub_0_r|].
  assert (Hsplit : (c * 10 ^ k = c * 10 ^ (k - j) * 10 ^ j)%N).
  { rewrite <- N.mul_assoc, <- N.pow_add_r. do 2 f_equal. lia. }
  assert (Hnz : (10 ^ j <> 0)%N) by (apply N.pow_nonzero; discriminate).
  rewrite Hsplit, N.div_mul, N.Div0.mod_mul by assumption.
  assert (Hhalf : (0 < 5 * 10 ^ (j - 1))%N).
  { apply N.mul_pos_pos; [lia|]. apply N.neq_0_lt_0, N.pow_nonzero. discriminate. }
  destruct (N.ltb_spec (5 * 10 ^ (j - 1)) 0) as [H|_]; [lia|].
  destruct (N.eqb_spec 0 (5 * 10 ^ (j - 1))) as [H|_]; [lia | reflexivity].
Qed.

(** Rounding a coefficient that carries [a] more zeros at [a] more
    places is rounding the coefficient itself. *)
Lemma round_half_even_scaled :
  forall c a j, (0 < j)%N ->
    PyDecimal.round_half_even (c * 10 ^ a) (j + a) = PyDecimal.round_half_even c j.
Proof.
  intros c a j Hj. unfold PyDecimal.round_half_even.
  destruct (N.eqb_spec (j + a) 0) as [H|_]; [lia|].
  destruct (N.eqb_spec j 0) as [H|_]; [lia|].
  assert (Ha : (10 ^ a <> 0)%N) by (apply N.pow_nonzero; discriminate).
  assert (Hap : (0 < 10 ^ a)%N) by lia.
  rewrite N.pow_add_r, N.Div0.div_mul_cancel_r, N.Div0.mul_mod_distr_r by assumption.
  replace (j + a - 1)%N with (j - 1 + a)%N by lia.
  rewrite N.pow_add_r, N.mul_assoc.
  set (half := (5 * 10 ^ (j - 1))%N). set (r := (c mod 10 ^ j)%N).
  assert (Hlt : (half * 10 ^ a <? r * 10 ^ a)%N = (half <? r)%N).
  { destruct (N.ltb_spec half r) as [H|H].
    - apply N.ltb_lt. now apply N.mul_lt_mono_pos_r.
    - apply N.ltb_ge. now apply N.mul_le_mono_r. }
  assert (Heq : (r * 10 ^ a =? half * 10 ^ a)%N = (r =? half)%N).
  { destruct (N.eqb_spec r half) as [->|H].
    - apply N.eqb_refl.
    - apply N.eqb_neq. intros E. apply H. now apply N.mul_cancel_r in E. }
  now rewrite Hlt, Heq.
Qed.

(** A rendering depends on the sign and on the rescaled coefficient. *)
Lemma format_f_ext :
  forall d1 d2 p,
    PyDecimal.sign d1 = PyDecimal.sign d2 ->
    PyDecimal.coeff (PyDecimal.rescale d1 (- p))
      = PyDecimal.coeff (PyDecimal.rescale d2 (- p)) ->
    PyDecimal.format_f d1 p = PyDecimal.format_f d2 p.
Proof.
  intros d1 d2 p Hs Hc. unfold PyDecimal.format_f. now rewrite Hs, Hc.
Qed.

(** Zeros moved from the coefficient into the exponent do not show. *)
Lemma rescale_scaled :
  forall s c a e q,
    PyDecimal.coeff (PyDecimal.rescale (PyDecimal.mkDecimal s (c * 10 ^ a) e) q)
    = PyDecimal.coeff (PyDecimal.rescale (PyDecimal.mkDecimal s c (e + Z.of_N a)) q).
Proof.
  intros s c a e q. unfold PyDecimal.rescale.
  cbn [PyDecimal.sign PyDecimal.coeff PyDecimal.exp].
  destruct (Z.leb_spec q e) as [H1|H1];
    destruct (Z.leb_spec q (e + Z.of_N a)) as [H2|H2];
    cbn [PyDecimal.coeff]; try lia.
  - rewrite <- N.mul_assoc, <- N.pow_add_r. do 2 f_equal. lia.
  - rewrite round_half_even_exact by lia. do 2 f_equal. lia.
  - replace (Z.to_N (q - e)) with (Z.to_N (q - (e + Z.of_N a)) + a)%N by lia.
    apply round_half_even_scaled. lia.
Qed.

Lemma rescale_zero :
  forall d q, PyDecimal.coeff d = 0%N ->
    PyDecimal.coeff (PyDecimal.rescale d q) = 0%N.
Proof.
  intros d q H. unfold PyDecimal.rescale. rewrite H.
  destruct (q <=? PyDecimal.exp d); cbn [PyDecimal.coeff];
    [reflexivity | apply round_half_even_0].
Qed.

(** ** When the working precision found on entry is enough *)

Lemma of_str_exp_nonpos :
  forall s m, PyDecimal.of_str s = Returned m -> PyDecimal.exp m <= 0.
Proof.
  intros s m. unfold PyDecimal.of_str.
  destruct (PyInt.signed _) as [neg body].
  destruct (PyDecimal.span_digits 0 0 body) as [[ip ni] r].
  destruct r as [|c1 r1].
  - destruct (0 <? ni)%nat; [|discriminate]. intros H. inversion H. cbn. lia.
  - destruct (Ascii.eqb c1 "."); [|discriminate].
    destruct (PyDecimal.span_digits ip 0 r1) as [[co nf] r2].
    destruct r2; [|discriminate].
    destruct (0 <? ni + nf)%nat; [|discriminate].
    intros H. inversion H. cbn. lia.
Qed.

(** The multiply step on a mantissa whose digits fit the working
    precision: it returns, and what it returns has the sign of the
    mantissa and, rescaled to any exponent, the coefficient of the
    literal's exact value. *)
Lemma multiply_exact :
  forall ctx m e,
    1 <= PyDecimal.prec ctx ->
    PyDecimal.exp m <= 0 ->
    e <= PyDecimal.Emax ->
    PyDecimal.ndigits (PyDecimal.coeff m) <= PyDecimal.prec ctx ->
    PyDecimal.Emin <= PyDecimal.exp m + Z.min e 0 ->
    PyDecimal.ndigits (PyDecimal.coeff m) + PyDecimal.exp m + e <= PyDecimal.Emax ->
    exists t number,
      PyDecimal.pow10 ctx e = Returned t /\
      PyDecimal.mul ctx m t = Returned number /\
      PyDecimal.sign number = PyDecimal.sign m /\
      forall q,
        PyDecimal.coeff (PyDecimal.rescale number q)
        = PyDecimal.coeff (PyDecimal.rescale (Notions.scaled m e) q).
Proof.
  intros ctx [s c x] e Hprec Hx He Hnd Hmin Hmax.
  cbn [PyDecimal.sign PyDecimal.coeff PyDecimal.exp] in *.
  unfold Notions.scaled. cbn [PyDecimal.sign PyDecimal.coeff PyDecimal.exp].
  unfold PyDecimal.Emax, PyDecimal.Emin in *.
  destruct (N.eq_dec c 0) as [->|Hc].
  - (* a zero mantissa *)
    assert (Hpow : exists t, PyDecimal.pow10 ctx e = Returned t).
    { unfold PyDecimal.pow10, PyDecimal.Emax.
      destruct (Z.ltb_spec 999999 e); [lia|].
      destruct (0 <=? e); [eexists; reflexivity|].
      destruct (PyDecimal.Etiny ctx <=? e); eexists; reflexivity. }
    destruct Hpow as [t Ht]. exists t.
    pose proof (pow10_sign _ _ _ Ht) as Hst.
    unfold PyDecimal.mul, PyDecimal._fix.
    cbn [PyDecimal.sign PyDecimal.coeff PyDecimal.exp].
    rewrite N.mul_0_l, Hst, xorb_false_r. cbn [N.eqb].
    eexists. split; [exact Ht|]. split; [reflexivity|]. split; [reflexivity|].
    intros q. now rewrite !rescale_zero.
  - destruct (Z.le_gt_cases 0 e) as [Hpos|Hneg].
    + (* the exponent is not negative: the power is padded with zeros *)
      set (k := Z.min e (PyDecimal.prec ctx - 1)).
      assert (Hk : 0 <= k <= e) by (unfold k; lia).
      assert (Hpow : PyDecimal.pow10 ctx e
                     = Returned (PyDecimal.mkDecimal false (10 ^ Z.to_N k) (e - k))).
      { unfold PyDecimal.pow10, PyDecimal.Emax.
        destruct (Z.ltb_spec 999999 e); [lia|].
        destruct (Z.leb_spec 0 e); [reflexivity | lia]. }
      assert (Hmul : forall R,
                 PyDecimal.mul ctx (PyDecimal.mkDecimal s c x)
                   (PyDecimal.mkDecimal false (10 ^ Z.to_N k) (e - k)) = R ->
                 exists a, R = Returned (PyDecimal.mkDecimal s (c * 10 ^ a)
                                           (x + e - Z.of_N a))).
      { intros R.
        unfold PyDecimal.mul. cbn [PyDecimal.sign PyDecimal.coeff PyDecimal.exp].
        rewrite xorb_false_r. unfold PyDecimal._fix.
        cbn [PyDecimal.sign PyDecimal.coeff PyDecimal.exp].
        assert (Hnz : (c * 10 ^ Z.to_N k <> 0)%N).
        { apply N.neq_mul_0. split; [assumption|]. apply N.pow_nonzero. discriminate. }
        destruct (N.eqb_spec (c * 10 ^ Z.to_N k) 0) as [H|_]; [contradiction|].
        rewrite ndigits_mul_pow10 by assumption. rewrite Z2N.id by lia.
        unfold PyDecimal.Etop, PyDecimal.Etiny, PyDecimal.Emax, PyDecimal.Emin.
        set (nd := PyDecimal.ndigits c) in *.
        destruct (Z.ltb_spec (999999 - PyDecimal.prec ctx + 1)
                    (nd + k + (x + (e - k)) - PyDecimal.prec ctx)) as [H|_]; [lia|].
        cbv zeta.
        set (exp_min := Z.max (nd + k + (x + (e - k)) - PyDecimal.prec ctx)
                              (-999999 - PyDecimal.prec ctx + 1)).
        destruct (Z.ltb_spec (x + (e - k)) exp_min) as [Hround|Hkeep].
        - (* zeros are dropped from the coefficient *)
          assert (Hexp_min : exp_min = nd + x + e - PyDecimal.prec ctx)
            by (unfold exp_min in *; lia).
          set (j := Z.to_N (exp_min - (x + (e - k)))).
          assert (Hj : (j <= Z.to_N k)%N) by (unfold j; lia).
          rewrite round_half_even_exact by assumption.
          assert (Hc2 : (c * 10 ^ (Z.to_N k - j) <> 0)%N).
          { apply N.neq_mul_0. split; [assumption|]. apply N.pow_nonzero. discriminate. }
          rewrite ndigits_mul_pow10 by assumption. fold nd.
          destruct (Z.ltb_spec (PyDecimal.prec ctx) (nd + Z.of_N (Z.to_N k - j)))
            as [H|_]; [unfold j in H; lia|].
          destruct (Z.ltb_spec (999999 - PyDecimal.prec ctx + 1) exp_min)
            as [H|_]; [lia|].
          intros <-. exists (Z.to_N k - j)%N. do 2 f_equal. unfold j. lia.
        - intros <-. exists (Z.to_N k). do 2 f_equal. lia. }
      destruct (Hmul _ eq_refl) as [a Ha].
      eexists. eexists. split; [exact Hpow|]. split; [exact Ha|].
      split; [reflexivity|].
      intros q. rewrite rescale_scaled. do 3 f_equal. lia.
    + (* a negative exponent: the power is 1E<e> *)
      assert (Hpow : PyDecimal.pow10 ctx e
                     = Returned (PyDecimal.mkDecimal false 1 e)).
      { unfold PyDecimal.pow10, PyDecimal.Emax, PyDecimal.Etiny, PyDecimal.Emin.
        destruct (Z.ltb_spec 999999 e); [lia|].
        destruct (Z.leb_spec 0 e); [lia|].
        destruct (Z.leb_spec (-999999 - PyDecimal.prec ctx + 1) e);
          [reflexivity | lia]. }
      eexists. eexists. split; [exact Hpow|].
      unfold PyDecimal.mul. cbn [PyDecimal.sign PyDecimal.coeff PyDecimal.exp].
      rewrite xorb_false_r, N.mul_1_r.
      rewrite _fix_exact;
        cbn [PyDecimal.sign PyDecimal.coeff PyDecimal.exp];
        unfold PyDecimal.Etiny, PyDecimal.Emax, PyDecimal.Emin; try assumption; try lia.
      split; [reflexivity|]. split; reflexivity.
Qed.

(** The generator on a literal whose mantissa fits the working precision
    found on entry. *)
Lemma generate_when_precision_suffices :
  forall literal p r b verbose w integer_part fractional_part exponent m,
    NumberParser.parse literal
      = Returned (integer_part, fractional_part, exponent) ->
    PyDecimal.of_str (integer_part ++ "." ++ fractional_part) = Returned m ->
    1 <= PyDecimal.prec (getcontext w) ->
    PyDecimal.ndigits (PyDecimal.coeff m) <= PyDecimal.prec (getcontext w) ->
    exponent <= PyDecimal.Emax ->
    PyDecimal.Emin <= PyDecimal.exp m + Z.min exponent 0 ->
    PyDecimal.ndigits (PyDecimal.coeff m) + PyDecimal.exp m + exponent
      <= PyDecimal.Emax ->
    0 <= p -> p + Z.max exponent 0 + 1 <= PyDecimal.MAX_PREC ->
    TestCaseGenerator.generate literal p r b verbose w
    = (Returned
         (mkTestCase literal p
            (NumberGenerator._remove_trailing_zeros
               (PyDecimal.format_f (Notions.scaled m exponent) p)) r b),
       mkWorld (PyDecimal.mkContext (p + Z.max exponent 0 + 1)) (stdout w)).
Proof.
  intros literal p r b verbose w ip fp e m Hparse Hm Hprec Hnd He Hmin Hmax Hp Hpmax.
  destruct (multiply_exact (getcontext w) m e Hprec (of_str_exp_nonpos _ _ Hm)
              He Hnd Hmin Hmax) as (t & number & Hpow & Hmul & Hsign & Hval).
  rewrite generate_unfold, Hparse, _calculate_number_world, Hm, Hpow, Hmul.
  cbn [fst]. cbv zeta.
  replace (1 <=? p + Z.max e 0 + 1) with true by (symmetry; apply Z.leb_le; lia).
  replace (p + Z.max e 0 + 1 <=? PyDecimal.MAX_PREC) with true
    by (symmetry; apply Z.leb_le; lia).
  replace (p <? 0) with false by (symmetry; apply Z.ltb_ge; lia).
  cbn [andb].
  rewrite (format_f_ext number (Notions.scaled m e) p Hsign (Hval (- p))).
  reflexivity.
Qed.

(** X12: when the working precision found on entry is at least the
    number of digits of the mantissa, and the exponents are within the
    context's range, the expected string is the literal's exact value,
    mantissa times ten to the exponent, rounded half to even to
    [precision] fractional digits and trimmed: it depends on nothing
    else that earlier calls have left. *)
Theorem generate_exact :
  forall literal p r b verbose w integer_part fractional_part exponent m,
    NumberParser.parse literal
      = Returned (integer_part, fractional_part, exponent) ->
    PyDecimal.of_str (integer_part ++ "." ++ fractional_part) = Returned m ->
    1 <= PyDecimal.prec (getcontext w) ->
    PyDecimal.ndigits (PyDecimal.coeff m) <= PyDecimal.prec (getcontext w) ->
    exponent <= PyDecimal.Emax ->
    PyDecimal.Emin <= PyDecimal.exp m + Z.min exponent 0 ->
    PyDecimal.ndigits (PyDecimal.coeff m) + PyDecimal.exp m + exponent
      <= PyDecimal.Emax ->
    0 <= p -> p + Z.max exponent 0 + 1 <= PyDecimal.MAX_PREC ->
    fst (TestCaseGenerator.generate literal p r b verbose w)
    = Returned
        (mkTestCase literal p
           (NumberGenerator._remove_trailing_zeros
              (PyDecimal.format_f (Notions.scaled m exponent) p)) r b).
Proof.
  intros. erewrite generate_when_precision_suffices by eassumption. reflexivity.
Qed.

Lemma generate_exact_witness :
  fst (TestCaseGenerator.generate "1.7976931348623157e308" 308 None None false
         initial_world)
  = Returned
      (mkTestCase "1.7976931348623157e308" 308
         (NumberGenerator._remove_trailing_zeros
            (PyDecimal.format_f
               (Notions.scaled (PyDecimal.mkDecimal false 17976931348623157 (-16)) 308)
               308)) None None).
Proof.
  apply (generate_exact "1.7976931348623157e308" 308 None None false
           initial_world "1" "7976931348623157" 308
           (PyDecimal.mkDecimal false 17976931348623157 (-16)));
    vm_compute; first [reflexivity | discriminate].
Defined.

(** ** More fractional digits than the value has *)

Lemma take_app :
  forall s t k, (k <= String.length s)%nat -> Str.take k (s ++ t) = Str.take k s.
Proof.
  induction s as [|c s IH]; intros t k Hk; cbn [String.length] in Hk.
  - replace k with 0%nat by lia. destruct t; reflexivity.
  - destruct k as [|k]; [reflexivity|]. cbn. rewrite IH by lia. reflexivity.
Qed.

Lemma drop_app :
  forall s t k, (k <= String.length s)%nat ->
    Str.drop k (s ++ t) = Str.drop k s ++ t.
Proof.
  induction s as [|c s IH]; intros t k Hk; cbn [String.length] in Hk.
  - replace k with 0%nat by lia. destruct t; reflexivity.
  - destruct k as [|k]; [reflexivity|]. cbn. apply IH. lia.
Qed.

Lemma rstrip_by_app_stripped :
  forall f s c, f c = true ->
    Str.rstrip_by f (s ++ String c "") = Str.rstrip_by f s.
Proof.
  intros f s c Hc. induction s as [|c' s IH].
  - cbn. now rewrite Hc.
  - cbn [append Str.rstrip_by]. now rewrite IH.
Qed.

(** A zero more at the end is trimmed with the others. *)
Lemma _remove_trailing_zeros_app_0 :
  forall s,
    NumberGenerator._remove_trailing_zeros (s ++ "0")
    = NumberGenerator._remove_trailing_zeros s.
Proof.
  intros s. unfold NumberGenerator._remove_trailing_zeros, Str.rstrip.
  now rewrite rstrip_by_app_stripped by reflexivity.
Qed.

(** One fractional digit more than the value has is one more zero. *)
Lemma format_f_one_more_digit :
  forall d q, 1 <= q -> - q <= PyDecimal.exp d ->
    PyDecimal.format_f d (q + 1) = PyDecimal.format_f d q ++ "0".
Proof.
  intros [s c x] q Hq Hx. unfold PyDecimal.format_f, PyDecimal.rescale.
  cbn [PyDecimal.sign PyDecimal.coeff PyDecimal.exp] in *.
  destruct (Z.leb_spec (- (q + 1)) x) as [_|H]; [|lia].
  destruct (Z.leb_spec (- q) x) as [_|H]; [|lia].
  cbn [PyDecimal.coeff].
  replace (Z.to_N (x - - (q + 1))) with (N.succ (Z.to_N (x - - q))) by lia.
  replace (Z.to_nat (q + 1)) with (S (Z.to_nat q)) by lia.
  assert (Hw : (1 <= Z.to_nat q)%nat) by lia.
  set (a := Z.to_N (x - - q)). set (w := Z.to_nat q) in *. clearbody a w.
  assert (Hne : forall f, String.length f = w -> String.eqb f "" = false).
  { intros [|? ?] Hf; [cbn in Hf; lia | reflexivity]. }
  set (sgn := if s then "-" else "").
  destruct (N.eq_dec c 0) as [->|Hc].
  - rewrite !N.mul_0_l. change (Str.of_N 0) with "0". cbn [String.length].
    clear Hne. destruct w as [|[|w]]; [lia | cbn; now rewrite !append_assoc |].
    replace (1 <? S (S (S w)))%nat with true by reflexivity.
    replace (1 <? S (S w))%nat with true by reflexivity.
    replace (S (S (S w)) - 1)%nat with (S (S w)) by lia.
    replace (S (S w) - 1)%nat with (S w) by lia.
    rewrite <- (repeat_snoc "0" (S w)).
    cbn [Str.repeat append String.eqb].
    rewrite (append_assoc sgn). cbn [append]. now rewrite append_assoc.
  - rewrite N.pow_succ_r'.
    replace (c * (10 * 10 ^ a))%N with (c * 10 ^ a * 10 ^ 1)%N by lia.
    assert (Hca : (c * 10 ^ a <> 0)%N).
    { apply N.neq_mul_0. split; [assumption|]. apply N.pow_nonzero. discriminate. }
    rewrite (of_N_mul_pow10 (c * 10 ^ a) 1 Hca).
    change (Str.repeat "0" (N.to_nat 1)) with "0".
    set (digits := Str.of_N (c * 10 ^ a)).
    rewrite length_append. cbn [String.length].
    replace (String.length digits + 1 <? S w)%nat
      with (String.length digits <? w)%nat
      by (destruct (Nat.ltb_spec (String.length digits) w);
          symmetry; [apply Nat.ltb_lt | apply Nat.ltb_ge]; lia).
    destruct (Nat.ltb_spec (String.length digits) w) as [Hlt|Hge].
    + replace (S w - (String.length digits + 1))%nat
        with (w - String.length digits)%nat by lia.
      rewrite (Hne (Str.repeat "0" (w - String.length digits) ++ digits))
        by (rewrite length_append, length_repeat; lia).
      assert (Hfrac' : String.eqb (Str.repeat "0" (w - String.length digits)
                                   ++ digits ++ "0") "" = false).
      { destruct (w - String.length digits)%nat eqn:E; [lia | reflexivity]. }
      rewrite Hfrac'. rewrite (append_assoc sgn). cbn [append].
      now rewrite ?append_assoc.
    + replace (String.length digits + 1 - S w)%nat
        with (String.length digits - w)%nat by lia.
      rewrite take_app, drop_app by lia.
      assert (Hlen : String.length (Str.drop (String.length digits - w) digits) = w).
      { rewrite length_drop; lia. }
      rewrite (Hne _ Hlen).
      assert (Hfrac' : String.eqb (Str.drop (String.length digits - w) digits ++ "0") ""
                       = false).
      { destruct (Str.drop (String.length digits - w) digits);
          [cbn in Hlen; lia | reflexivity]. }
      rewrite Hfrac'. rewrite (append_assoc sgn). cbn [append].
      now rewrite ?append_assoc.
Qed.

(** From the number of fractional digits of a value on, the trimmed
    rendering is the same at every precision. *)
Lemma rendering_saturates :
  forall d q n, 1 <= q -> - q <= PyDecimal.exp d ->
    NumberGenerator._remove_trailing_zeros (PyDecimal.format_f d (q + Z.of_nat n))
    = NumberGenerator._remove_trailing_zeros (PyDecimal.format_f d q).
Proof.
  intros d q n Hq Hx. induction n as [|n IH].
  - now rewrite Z.add_0_r.
  - replace (q + Z.of_nat (S n)) with (q + Z.of_nat n + 1) by lia.
    rewrite format_f_one_more_digit by lia.
    now rewrite _remove_trailing_zeros_app_0.
Qed.

(** X13: asking for more fractional digits than the literal's value has
    changes nothing.  When the working precision found on entry holds
    the mantissa, the expected string is the same at every precision
    from [max(1, -(exp + exponent))] on, [exp] being minus the number
    of fractional digits of the mantissa. *)
Theorem generate_precision_saturates :
  forall literal p p' r b verbose w integer_part fractional_part exponent m tc tc',
    NumberParser.parse literal
      = Returned (integer_part, fractional_part, exponent) ->
    PyDecimal.of_str (integer_part ++ "." ++ fractional_part) = Returned m ->
    1 <= PyDecimal.prec (getcontext w) ->
    PyDecimal.ndigits (PyDecimal.coeff m) <= PyDecimal.prec (getcontext w) ->
    exponent <= PyDecimal.Emax ->
    PyDecimal.Emin <= PyDecimal.exp m + Z.min exponent 0 ->
    PyDecimal.ndigits (PyDecimal.coeff m) + PyDecimal.exp m + exponent
      <= PyDecimal.Emax ->
    Z.max 1 (- (PyDecimal.exp m + exponent)) <= p <= p' ->
    p' + Z.max exponent 0 + 1 <= PyDecimal.MAX_PREC ->
    fst (TestCaseGenerator.generate literal p r b verbose w) = Returned tc ->
    fst (TestCaseGenerator.generate literal p' r b verbose w) = Returned tc' ->
    expected tc' = expected tc.
Proof.
  intros literal p p' r b verbose w ip fp e m tc tc'
         Hparse Hm Hprec Hnd He Hmin Hmax Hp Hp'.
  rewrite (generate_when_precision_suffices literal p r b verbose w ip fp e m)
    by (assumption || lia).
  rewrite (generate_when_precision_suffices literal p' r b verbose w ip fp e m)
    by (assumption || lia).
  cbn [fst]. intros H H'. injection H as <-. injection H' as <-. cbn [expected].
  replace p' with (p + Z.of_nat (Z.to_nat (p' - p))) by lia.
  apply rendering_saturates; unfold Notions.scaled; cbn [PyDecimal.exp]; lia.
Qed.

Lemma generate_precision_saturates_witness :
  expected (mkTestCase "1.5e-3" 40 "0.0015" None None)
  = expected (mkTestCase "1.5e-3" 4 "0.0015" None None).
Proof.
  apply (generate_precision_saturates "1.5e-3" 4 40 None None false initial_world
           "1" "5" (-3) (PyDecimal.mkDecimal false 15 (-1)));
    vm_compute; repeat split; first [reflexivity | discriminate].
Defined.

(** ** Generating, then verifying *)



(** ** The pi catalog, record by record *)

Lemma range_in : forall a b i, a <= i < b -> In i (range a b).
Proof.
  intros a b i H. unfold range. apply in_map_iff.
  exists (Z.to_nat (i - a)). split; [lia | apply in_seq; lia].
Qed.

(** The pi literal rounded to [i] significant digits and written with
    [i] fractional digits, against the literal written with [i - 1]:
    the fifty cases below the length of the literal. *)
Lemma pi_below_51 :
  forallb
    (fun i =>
       match PyDecimal._fix (PyDecimal.mkContext i) Spec.pi_decimal with
       | Returned d =>
           String.eqb
             (NumberGenerator._remove_trailing_zeros (PyDecimal.format_f d i))
             (NumberGenerator._remove_trailing_zeros
                (PyDecimal.format_f Spec.pi_decimal (i - 1)))
       | Raised _ => false
       end)
    (range 2 51) = true.
Proof. vm_compute. reflexivity. Qed.

(** A call of the catalog that finds the working precision equal to its
    own precision level, as the call before leaves it. *)
Lemma generate_pi_after_previous :
  forall i radix base verbose w,
    2 <= i < PyDecimal.MAX_PREC ->
    PyDecimal.prec (getcontext w) = i ->
    TestCaseGenerator.generate SpecialCaseGenerator.pi i radix base verbose w
    = (Returned
         (mkTestCase SpecialCaseGenerator.pi i
            (NumberGenerator._remove_trailing_zeros
               (PyDecimal.format_f Spec.pi_decimal (i - 1))) radix base),
       mkWorld (PyDecimal.mkContext (i + 1)) (stdout w)).
Proof.
  intros i radix base verbose [[P] out] Hi HP. cbn in HP. subst P.
  rewrite generate_unfold, parse_pi, _calculate_number_world, of_str_pi.
  cbn [getcontext stdout].
  rewrite pow10_0, mul_one by (cbn; lia).
  assert (Hnum : exists d,
             PyDecimal._fix (PyDecimal.mkContext i) Spec.pi_decimal = Returned d /\
             NumberGenerator._remove_trailing_zeros (PyDecimal.format_f d i)
             = NumberGenerator._remove_trailing_zeros
                 (PyDecimal.format_f Spec.pi_decimal (i - 1))).
  { destruct (Z.lt_ge_cases i 51) as [Hlt|Hge].
    - pose proof pi_below_51 as Hall. rewrite forallb_forall in Hall.
      specialize (Hall i (range_in 2 51 i (conj (proj1 Hi) Hlt))).
      destruct (PyDecimal._fix (PyDecimal.mkContext i) Spec.pi_decimal) as [d|x];
        [|discriminate].
      exists d. split; [reflexivity | now apply String.eqb_eq].
    - exists Spec.pi_decimal. split.
      + apply _fix_exact.
        * discriminate.
        * rewrite ndigits_pi. cbn. lia.
        * rewrite ndigits_pi. vm_compute. discriminate.
        * unfold PyDecimal.Etiny, PyDecimal.Emin, PyDecimal.MAX_PREC in *.
          cbn [PyDecimal.exp Spec.pi_decimal PyDecimal.prec]. lia.
      + replace i with (i - 1 + Z.of_nat 1) at 1 by lia.
        apply rendering_saturates; cbn [PyDecimal.exp Spec.pi_decimal]; lia. }
  destruct Hnum as (d & -> & Hd). cbn [fst]. cbv zeta.
  replace (i + Z.max 0 0 + 1) with (i + 1) by lia.
  replace (1 <=? i + 1) with true by (symmetry; apply Z.leb_le; lia).
  replace (i + 1 <=? PyDecimal.MAX_PREC) with true by (symmetry; apply Z.leb_le; lia).
  replace (i <? 0) with false by (symmetry; apply Z.ltb_ge; lia).
  cbn [andb]. now rewrite Hd.
Qed.

Lemma rounded_to_pi :
  forall p,
    Spec.rounded_to SpecialCaseGenerator.pi p
    = Returned (NumberGenerator._remove_trailing_zeros
                  (PyDecimal.format_f Spec.pi_decimal p)).
Proof.
  intros p. unfold Spec.rounded_to.
  change (PyDecimal.of_str SpecialCaseGenerator.pi) with (Returned Spec.pi_decimal).
  reflexivity.
Qed.

(** Consecutive calls of the catalog, from one that finds the working
    precision equal to its own precision level. *)
Lemma pi_run_one_digit_short :
  forall n s verbose w,
    (1 <= s)%nat ->
    PyDecimal.prec (getcontext w) = 1 + Z.of_nat s ->
    1 + Z.of_nat (s + n) <= PyDecimal.MAX_PREC ->
    exists tcs w',
      comprehension
        (fun i => TestCaseGenerator.generate SpecialCaseGenerator.pi i None None verbose)
        (map (fun i => 1 + Z.of_nat i) (seq s n)) w
      = (Returned tcs, w') /\
      Forall (fun tc =>
                2 <= precision tc /\
                Spec.rounded_to SpecialCaseGenerator.pi (precision tc - 1)
                = Returned (expected tc)) tcs.
Proof.
  induction n as [|n IH]; intros s verbose w Hs Hprec Hmax.
  - exists [], w. split; [reflexivity | constructor].
  - cbn [seq map comprehension]. unfold bind at 1.
    rewrite (generate_pi_after_previous (1 + Z.of_nat s) None None verbose w)
      by (assumption || lia).
    destruct (IH (S s) verbose
                (mkWorld (PyDecimal.mkContext (1 + Z.of_nat s + 1)) (stdout w)))
      as (tcs & w' & Hrun & Hall);
      [lia | cbn [getcontext PyDecimal.prec]; lia | lia |].
    unfold bind at 1. rewrite Hrun. unfold ret.
    eexists. exists w'. split; [reflexivity|].
    constructor; [|assumption].
    cbn [precision expected]. split; [lia | apply rounded_to_pi].
Qed.

(** X15: in the pi catalog every record after the first is one digit
    short.  The record at precision level [i >= 2] carries the literal
    rounded half to even to [i - 1] fractional digits, not [i]: its
    multiply step runs at the [i] significant digits that the call
    before has left as working precision. *)
Theorem pi_catalog_is_one_digit_short :
  forall count verbose w,
    Spec.valid_context (getcontext w) ->
    count < PyDecimal.MAX_PREC ->
    exists tcs w',
      SpecialCaseGenerator.generate_pi_approximations count verbose w
        = (Returned tcs, w') /\
      Forall (fun tc =>
                2 <= precision tc /\
                Spec.rounded_to SpecialCaseGenerator.pi (precision tc - 1)
                = Returned (expected tc)) (tl tcs).
Proof.
  intros count verbose w [Hprec _] Hcount.
  unfold SpecialCaseGenerator.generate_pi_approximations, range.
  replace (count + 1 - 1) with count by lia.
  destruct (Z.to_nat count) as [|n] eqn:En.
  - exists [], w. split; [reflexivity | constructor].
  - cbn [seq map comprehension]. unfold bind at 1.
    destruct (generate_pi (1 + Z.of_nat 0) None None verbose w Hprec)
      as (number & -> & _); [cbn; unfold PyDecimal.MAX_PREC; lia|].
    destruct (pi_run_one_digit_short n 1 verbose
                (mkWorld (PyDecimal.mkContext (1 + Z.of_nat 0 + 1)) (stdout w)))
      as (tcs & w' & Hrun & Hall); [lia | reflexivity | lia |].
    unfold bind at 1. rewrite Hrun. unfold ret.
    eexists. exists w'. split; [reflexivity | exact Hall].
Qed.

Lemma pi_catalog_is_one_digit_short_witness :
  exists tcs w',
    SpecialCaseGenerator.generate_pi_approximations 4 false initial_world
      = (Returned tcs, w') /\
    Forall (fun tc =>
              2 <= precision tc /\
              Spec.rounded_to SpecialCaseGenerator.pi (precision tc - 1)
              = Returned (expected tc)) (tl tcs).
Proof.
  apply (pi_catalog_is_one_digit_short 4 false initial_world);
    vm_compute; repeat split; first [reflexivity | discriminate].
Defined.

(** ** The reader of case files *)

Lemma _is_valid_line_eq :
  forall line verbose w,
    TestCaseReader._is_valid_line line verbose w
    = if (List.length (Str.split_whitespace (Str.strip line)) <? 2)%nat
      then (Returned false,
            mkWorld (getcontext w)
              (stdout w ++ [(if verbose then "Skipping invalid line: " ++ line else "")
                            ++ TestCaseVerifier.newline]))
      else (Returned true, w).
Proof.
  intros line verbose w. unfold TestCaseReader._is_valid_line.
  destruct (List.length (Str.split_whitespace (Str.strip line)) <? 2)%nat; reflexivity.
Qed.

(** What a line that gave a record held. *)
Lemma _parse_line_returned :
  forall line verbose w tc w',
    TestCaseReader._parse_line line verbose w = (Returned tc, w') ->
    (num_str tc = nth 0 (Str.split_whitespace (Str.strip line)) "" /\
     PyInt.of_str (nth 1 (Str.split_whitespace (Str.strip line)) "")
       = Returned (precision tc) /\
     match radix tc with
     | Some r =>
         (2 < List.length (Str.split_whitespace (Str.strip line)))%nat /\
         PyInt.of_str (nth 2 (Str.split_whitespace (Str.strip line)) "") = Returned r
     | None => (List.length (Str.split_whitespace (Str.strip line)) <= 2)%nat
     end /\
     match base tc with
     | Some b =>
         (3 < List.length (Str.split_whitespace (Str.strip line)))%nat /\
         PyInt.of_str (nth 3 (Str.split_whitespace (Str.strip line)) "") = Returned b
     | None => (List.length (Str.split_whitespace (Str.strip line)) <= 3)%nat
     end) /\
    stdout w' = stdout w.
Proof.
  intros line verbose w tc w'. unfold TestCaseReader._parse_line.
  set (parts := Str.split_whitespace (Str.strip line)).
  destruct parts as [|f0 [|f1 rest]] eqn:E; cbn [firstn]; try discriminate.
  unfold bind, lift, ret.
  set (n := List.length (f0 :: f1 :: rest)).
  destruct (Nat.ltb_spec 2 n) as [H2|H2].
  - destruct (PyInt.of_str (nth 2 (f0 :: f1 :: rest) "")) as [r|x] eqn:Er;
      [|discriminate].
    destruct (Nat.ltb_spec 3 n) as [H3|H3].
    + destruct (PyInt.of_str (nth 3 (f0 :: f1 :: rest) "")) as [b|x] eqn:Eb;
        [|discriminate].
      destruct (PyInt.of_str f1) as [p|x] eqn:Ep; [|discriminate].
      intros H. destruct (generate_returned _ _ _ _ _ _ _ _ H)
        as (ip & fp & e & number & _ & _ & _ & -> & ->).
      cbn [num_str precision radix base nth stdout]. repeat split; assumption.
    + destruct (PyInt.of_str f1) as [p|x] eqn:Ep; [|discriminate].
      intros H. destruct (generate_returned _ _ _ _ _ _ _ _ H)
        as (ip & fp & e & number & _ & _ & _ & -> & ->).
      cbn [num_str precision radix base nth stdout]. repeat split; assumption.
  - destruct (Nat.ltb_spec 3 n) as [H3|H3]; [lia|].
    destruct (PyInt.of_str f1) as [p|x] eqn:Ep; [|discriminate].
    intros H. destruct (generate_returned _ _ _ _ _ _ _ _ H)
      as (ip & fp & e & number & _ & _ & _ & -> & ->).
    cbn [num_str precision radix base nth stdout]. repeat split; assumption.
Qed.

(** X16: when the reader returns, its records are, one for one and in
    order, the lines of the text that hold two fields or more: each
    record carries the first field as literal, the second read by
    [int] as precision, and a radix and a base exactly when the line
    holds a third and a fourth field, read by [int] too.  Fields from
    the fifth on are ignored. *)
Theorem read_from_file_records :
  forall filename text verbose w tcs w',
    TestCaseReader.read_from_file filename text verbose w = (Returned tcs, w') ->
    Forall2
      (fun tc line =>
         num_str tc = nth 0 (Str.split_whitespace (Str.strip line)) "" /\
         PyInt.of_str (nth 1 (Str.split_whitespace (Str.strip line)) "")
           = Returned (precision tc) /\
         match radix tc with
         | Some r =>
             (2 < List.length (Str.split_whitespace (Str.strip line)))%nat /\
             PyInt.of_str (nth 2 (Str.split_whitespace (Str.strip line)) "")
               = Returned r
         | None => (List.length (Str.split_whitespace (Str.strip line)) <= 2)%nat
         end /\
         match base tc with
         | Some b =>
             (3 < List.length (Str.split_whitespace (Str.strip line)))%nat /\
             PyInt.of_str (nth 3 (Str.split_whitespace (Str.strip line)) "")
               = Returned b
         | None => (List.length (Str.split_whitespace (Str.strip line)) <= 3)%nat
         end)
      tcs
      (filter (fun line =>
                 (2 <=? List.length (Str.split_whitespace (Str.strip line)))%nat)
              (Str.splitlines text)).
Proof.
  intros filename text verbose w tcs w'. unfold TestCaseReader.read_from_file.
  unfold bind at 1. unfold print at 1.
  generalize (mkWorld (getcontext w)
                (stdout w ++ [(if verbose
                               then TestCaseVerifier.newline
                                    ++ "Reading test cases from file: " ++ filename
                               else "") ++ TestCaseVerifier.newline])).
  clear w. generalize (Str.splitlines text) as lines. clear text.
  intros lines. revert tcs.
  induction lines as [|line lines IH]; intros tcs w.
  - cbn. intros H. inversion H. constructor.
  - cbn [comprehension_if filter]. unfold bind at 1.
    rewrite _is_valid_line_eq.
    destruct (Nat.ltb_spec (List.length (Str.split_whitespace (Str.strip line))) 2)
      as [Hlt|Hge].
    + replace (2 <=? List.length (Str.split_whitespace (Str.strip line)))%nat
        with false by (symmetry; apply Nat.leb_gt; lia).
      apply IH.
    + replace (2 <=? List.length (Str.split_whitespace (Str.strip line)))%nat
        with true by (symmetry; apply Nat.leb_le; lia).
      unfold bind at 1.
      destruct (TestCaseReader._parse_line line verbose w) as [[tc|x] w1] eqn:Eline;
        [|discriminate].
      unfold bind at 1.
      destruct (comprehension_if _ _ lines w1) as [[rest|x] w2] eqn:Erest;
        [|discriminate].
      unfold ret. intros H. inversion H. subst. constructor.
      * exact (proj1 (_parse_line_returned _ _ _ _ _ Eline)).
      * exact (IH _ _ Erest).
Qed.

Lemma read_from_file_records_witness :
  Forall2
    (fun tc line =>
       num_str tc = nth 0 (Str.split_whitespace (Str.strip line)) "" /\
       PyInt.of_str (nth 1 (Str.split_whitespace (Str.strip line)) "")
         = Returned (precision tc) /\
       match radix tc with
       | Some r =>
           (2 < List.length (Str.split_whitespace (Str.strip line)))%nat /\
           PyInt.of_str (nth 2 (Str.split_whitespace (Str.strip line)) "")
             = Returned r
       | None => (List.length (Str.split_whitespace (Str.strip line)) <= 2)%nat
       end /\
       match base tc with
       | Some b =>
           (3 < List.length (Str.split_whitespace (Str.strip line)))%nat /\
           PyInt.of_str (nth 3 (Str.split_whitespace (Str.strip line)) "")
             = Returned b
       | None => (List.length (Str.split_whitespace (Str.strip line)) <= 3)%nat
       end)
    [mkTestCase "1.5" 2 "1.5" None None;
     mkTestCase "2e3" 1 "2000.0" (Some 10) (Some 2)]
    (filter (fun line =>
               (2 <=? List.length (Str.split_whitespace (Str.strip line)))%nat)
            (Str.splitlines
               ("1.5 2" ++ TestCaseVerifier.newline ++ "skipped"
                ++ TestCaseVerifier.newline ++ TestCaseVerifier.newline
                ++ "  2e3 1 10 2 more "))).
Proof.
  apply (read_from_file_records "cases.txt"
           ("1.5 2" ++ TestCaseVerifier.newline ++ "skipped"
            ++ TestCaseVerifier.newline ++ TestCaseVerifier.newline
            ++ "  2e3 1 10 2 more ")
           false initial_world
           [mkTestCase "1.5" 2 "1.5" None None;
            mkTestCase "2e3" 1 "2000.0" (Some 10) (Some 2)]
           (mkWorld (PyDecimal.mkContext 5)
              [TestCaseVerifier.newline; TestCaseVerifier.newline;
               TestCaseVerifier.newline])).
  vm_compute. reflexivity.
Defined.

(** The lines read so far, and what they have written. *)
Lemma read_lines_stdout :
  forall verbose lines w tcs w',
    comprehension_if (fun line => TestCaseReader._parse_line line verbose)
                     (fun line => TestCaseReader._is_valid_line line verbose)
                     lines w
    = (Returned tcs, w') ->
    stdout w'
    = (stdout w
       ++ map (fun line =>
                 ((if verbose then "Skipping invalid line: " ++ line else "")
                  ++ TestCaseVerifier.newline)%string)
              (filter (fun line =>
                         (List.length (Str.split_whitespace (Str.strip line)) <? 2)%nat)
                      lines))%list.
Proof.
  intros verbose lines. induction lines as [|line lines IH]; intros w tcs w'.
  - cbn. intros H. inversion H. now rewrite app_nil_r.
  - cbn [comprehension_if filter]. unfold bind at 1.
    rewrite _is_valid_line_eq.
    destruct (List.length (Str.split_whitespace (Str.strip line)) <? 2)%nat.
    + intros H. rewrite (IH _ _ _ H). cbn [stdout map].
      now rewrite <- app_assoc.
    + unfold bind at 1.
      destruct (TestCaseReader._parse_line line verbose w) as [[tc|x] w1] eqn:Eline;
        [|discriminate].
      unfold bind at 1.
      destruct (comprehension_if _ _ lines w1) as [[rest|x] w2] eqn:Erest;
        [|discriminate].
      unfold ret. intros H. inversion H. subst.
      rewrite (IH _ _ _ Erest).
      now rewrite (proj2 (_parse_line_returned _ _ _ _ _ Eline)).
Qed.

(** X17: what a successful read writes to standard output: the header,
    then one text for every line that holds fewer than two fields, blank
    lines included, and nothing for the lines that gave a record.  When
    not verbose every one of these texts is an empty line, so a quiet
    read still writes one line feed for the header and one for each line
    it skips. *)
Theorem read_from_file_output :
  forall filename text verbose w tcs w',
    TestCaseReader.read_from_file filename text verbose w = (Returned tcs, w') ->
    stdout w'
    = (stdout w
       ++ ((if verbose
            then TestCaseVerifier.newline ++ "Reading test cases from file: " ++ filename
            else "") ++ TestCaseVerifier.newline)%string
       :: map (fun line =>
                 ((if verbose then "Skipping invalid line: " ++ line else "")
                  ++ TestCaseVerifier.newline)%string)
              (filter (fun line =>
                         (List.length (Str.split_whitespace (Str.strip line)) <? 2)%nat)
                      (Str.splitlines text)))%list.
Proof.
  intros filename text verbose w tcs w'. unfold TestCaseReader.read_from_file.
  unfold bind at 1. unfold print at 1. intros H.
  rewrite (read_lines_stdout _ _ _ _ _ H). cbn [stdout].
  now rewrite <- app_assoc.
Qed.

Lemma read_from_file_output_witness :
  stdout (mkWorld (PyDecimal.mkContext 5)
            [TestCaseVerifier.newline; TestCaseVerifier.newline;
             TestCaseVerifier.newline])
  = (stdout initial_world
     ++ ((if false
          then TestCaseVerifier.newline ++ "Reading test cases from file: " ++ "cases.txt"
          else "") ++ TestCaseVerifier.newline)%string
     :: map (fun line =>
               ((if false then "Skipping invalid line: " ++ line else "")
                ++ TestCaseVerifier.newline)%string)
            (filter (fun line =>
                       (List.length (Str.split_whitespace (Str.strip line)) <? 2)%nat)
                    (Str.splitlines
                       ("1.5 2" ++ TestCaseVerifier.newline ++ "skipped"
                        ++ TestCaseVerifier.newline ++ TestCaseVerifier.newline
                        ++ "  2e3 1 10 2 more ")%string)))%list.
Proof.
  apply (read_from_file_output "cases.txt"
           ("1.5 2" ++ TestCaseVerifier.newline ++ "skipped"
            ++ TestCaseVerifier.newline ++ TestCaseVerifier.newline
            ++ "  2e3 1 10 2 more ")
           false initial_world
           [mkTestCase "1.5" 2 "1.5" None None;
            mkTestCase "2e3" 1 "2000.0" (Some 10) (Some 2)]).
  vm_compute. reflexivity.
Defined.

(** ** The writer of C tables *)

Lemma _format_c_struct_asdict :
  forall tc,
    exists row,
      TestCaseWriter._format_c_struct (TestCaseWriter.asdict tc) = Some row /\
      TestCaseWriter._format_c_struct
        (TestCaseWriter.asdict
           (mkTestCase (num_str tc) (precision tc) (expected tc) (radix tc)
              (match radix tc with Some _ => base tc | None => None end)))
      = Some row.
Proof.
  intros [n p e [r|] [b|]]; eexists; split; reflexivity.
Qed.

(** X18: the C table is written for every list of records, no key is
    ever missing from a record's dictionary; and a base without a radix
    is lost on the way: the table is the one written for the same
    records with that base removed. *)
Theorem write_c_drops_base_without_radix :
  forall test_cases,
    exists text,
      TestCaseWriter.write_c test_cases = Some text /\
      TestCaseWriter.write_c
        (map (fun tc =>
                mkTestCase (num_str tc) (precision tc) (expected tc) (radix tc)
                  (match radix tc with Some _ => base tc | None => None end))
             test_cases)
      = Some text.
Proof.
  intros test_cases. unfold TestCaseWriter.write_c, TestCaseWriter.writers_c.
  assert (H : exists rows,
             TestCaseWriter.join_c_structs (map TestCaseWriter.asdict test_cases)
               = Some rows /\
             TestCaseWriter.join_c_structs
               (map TestCaseWriter.asdict
                  (map (fun tc =>
                          mkTestCase (num_str tc) (precision tc) (expected tc)
                            (radix tc)
                            (match radix tc with
                             | Some _ => base tc
                             | None => None
                             end))
                       test_cases))
             = Some rows).
  { induction test_cases as [|tc rest (rows & IH1 & IH2)].
    - exists "". split; reflexivity.
    - destruct (_format_c_struct_asdict tc) as (row & H1 & H2).
      exists (row ++ rows). cbn [map TestCaseWriter.join_c_structs].
      rewrite H1, H2, IH1, IH2. split; reflexivity. }
  destruct H as (rows & -> & ->). eexists. split; reflexivity.
Qed.

(** ** When the case generator returns *)

(** The multiply step returns whenever the exact product is within the
    exponent range. *)
Lemma _calculate_number_returns :
  forall integer_part fractional_part exponent w m,
    PyDecimal.of_str (integer_part ++ "." ++ fractional_part) = Returned m ->
    1 <= PyDecimal.prec (getcontext w) ->
    exponent <= PyDecimal.Emax ->
    PyDecimal.ndigits (PyDecimal.coeff m) + PyDecimal.exp m + exponent
      <= PyDecimal.Emax ->
    exists number,
      TestCaseGenerator._calculate_number integer_part fractional_part exponent w
      = (Returned number, w).
Proof.
  intros ip fp e w m Hm Hprec He Hmax.
  rewrite _calculate_number_world, Hm.
  pose proof (of_str_exp_nonpos _ _ Hm) as Hexp.
  unfold PyDecimal.pow10.
  destruct (Z.ltb_spec PyDecimal.Emax e) as [H|_]; [lia|].
  assert (Hzero : forall s x,
             exists d, PyDecimal._fix (getcontext w) (PyDecimal.mkDecimal s 0 x)
                       = Returned d).
  { intros s x. eexists. unfold PyDecimal._fix. cbn [PyDecimal.coeff N.eqb].
    reflexivity. }
  destruct (N.eq_dec (PyDecimal.coeff m) 0) as [Hc|Hc].
  { assert (Hmul : forall t, exists d, PyDecimal.mul (getcontext w) m t = Returned d).
    { intros t. unfold PyDecimal.mul. rewrite Hc, N.mul_0_l. apply Hzero. }
    destruct (0 <=? e); [|destruct (PyDecimal.Etiny (getcontext w) <=? e)];
      match goal with
      | |- context [PyDecimal.mul ?c m ?t] =>
          destruct (Hmul t) as [d ->]; now exists d
      end. }
  destruct (Z.leb_spec 0 e) as [H0|H0].
  - unfold PyDecimal.mul. cbn [PyDecimal.coeff PyDecimal.exp PyDecimal.sign].
    destruct (_fix_returns (getcontext w)
                (PyDecimal.mkDecimal (xorb (PyDecimal.sign m) false)
                   (PyDecimal.coeff m
                    * 10 ^ Z.to_N (Z.min e (PyDecimal.prec (getcontext w) - 1)))
                   (PyDecimal.exp m
                    + (e - Z.min e (PyDecimal.prec (getcontext w) - 1)))))
      as [d ->]; [|now exists d].
    cbn [PyDecimal.coeff PyDecimal.exp].
    rewrite ndigits_mul_pow10 by assumption. lia.
  - destruct (PyDecimal.Etiny (getcontext w) <=? e).
    + unfold PyDecimal.mul. cbn [PyDecimal.coeff PyDecimal.exp PyDecimal.sign].
      destruct (_fix_returns (getcontext w)
                  (PyDecimal.mkDecimal (xorb (PyDecimal.sign m) false)
                     (PyDecimal.coeff m * 1) (PyDecimal.exp m + e)))
        as [d ->]; [|now exists d].
      cbn [PyDecimal.coeff PyDecimal.exp]. rewrite N.mul_1_r. lia.
    + unfold PyDecimal.mul. cbn [PyDecimal.coeff PyDecimal.exp PyDecimal.sign].
      rewrite N.mul_0_r.
      destruct (Hzero (xorb (PyDecimal.sign m) false)
                  (PyDecimal.exp m + PyDecimal.Etiny (getcontext w))) as [d ->].
      now exists d.
Qed.

(** X19: the generator returns a record, and raises nothing, for every
    literal that parses and whose mantissa the constructor accepts, when
    the exponent is at most 999999, the exact value is below 10^999999,
    the precision is not negative and [precision + max(exponent, 0) + 1]
    is within the setter's range; this at any working precision of one
    digit or more, and the working precision it leaves is that sum. *)
Theorem generate_returns :
  forall literal p r b verbose w integer_part fractional_part exponent m,
    NumberParser.parse literal
      = Returned (integer_part, fractional_part, exponent) ->
    PyDecimal.of_str (integer_part ++ "." ++ fractional_part) = Returned m ->
    1 <= PyDecimal.prec (getcontext w) ->
    exponent <= PyDecimal.Emax ->
    PyDecimal.ndigits (PyDecimal.coeff m) + PyDecimal.exp m + exponent
      <= PyDecimal.Emax ->
    0 <= p -> p + Z.max exponent 0 + 1 <= PyDecimal.MAX_PREC ->
    exists tc,
      TestCaseGenerator.generate literal p r b verbose w
      = (Returned tc,
         mkWorld (PyDecimal.mkContext (p + Z.max exponent 0 + 1)) (stdout w)).
Proof.
  intros literal p r b verbose w ip fp e m Hparse Hm Hprec He Hmax Hp Hpmax.
  destruct (_calculate_number_returns ip fp e w m Hm Hprec He Hmax) as [number Hn].
  rewrite generate_unfold, Hparse, Hn. cbn [fst]. cbv zeta.
  replace (1 <=? p + Z.max e 0 + 1) with true by (symmetry; apply Z.leb_le; lia).
  replace (p + Z.max e 0 + 1 <=? PyDecimal.MAX_PREC) with true
    by (symmetry; apply Z.leb_le; lia).
  replace (p <? 0) with false by (symmetry; apply Z.ltb_ge; lia).
  cbn [andb]. eexists. reflexivity.
Qed.

Lemma generate_returns_witness :
  exists tc,
    TestCaseGenerator.generate "9.99e999997" 3 None None false
      (mkWorld (PyDecimal.mkContext 1) [])
    = (Returned tc,
       mkWorld (PyDecimal.mkContext (3 + Z.max 999997 0 + 1))
         (stdout (mkWorld (PyDecimal.mkContext 1) []))).
Proof.
  apply (generate_returns "9.99e999997" 3 None None false
           (mkWorld (PyDecimal.mkContext 1) []) "9" "99" 999997
           (PyDecimal.mkDecimal false 999 (-2)));
    vm_compute; first [reflexivity | discriminate].
Defined.
